(** * Finishing-material calculator: a shallow embedding of
      [package/models.py], [package/calculations.py] and
      [package/exporters.py]

    Numbers.  The Python code is duck-typed; the numbers it is given are
    Python's [int]s and [float]s.  An [int] is an integer of any size ([Z]);
    a [float] is an IEEE binary64 value ([spec_float] at precision 53 and
    exponent bound 1024, with its signed zeros, its infinities and NaN), and
    every operation on floats rounds to nearest, ties to even, as
    [SpecFloat] defines it.  The operators follow Python: two ints give an
    int, exactly ([/] gives the correctly rounded float); otherwise an int
    operand is converted to float first, which raises [OverflowError] when
    the int is beyond the range of floats; comparisons between an int and a
    float are exact; a comparison with NaN is false.

    Objects.  Python lists are mutable objects reached through references:
    the calculator's history, the copy that [get_history] hands out and the
    list that [compare_materials] builds are separate list objects living in
    one store ([gmap loc (list CalculationResult)]).  A method is a function
    from the receiver and the store to an outcome (a value or a raised
    exception) together with the receiver and the store it leaves behind:
    what a method wrote before it raised stays written, as in Python. *)

From Stdlib Require Import QArith Qpower Qround Qabs Lqa ZArith List Sorted Permutation.
From Stdlib Require Import SpecFloat.
From stdpp Require Import gmap strings list fin_maps.

Local Open Scope Z_scope.

(** ** Exceptions and outcomes *)

(** The text of each [ValueError] raised by the package or by the built-in
    functions it calls, named by the check that raises it; two of them
    quote the name of a parameter. *)
Inductive error_message : Type :=
| Msg_reserve_percent_range      (* reserve percent must be from 0 to 100 *)
| Msg_area_positive              (* area must be a positive number *)
| Msg_material_instance          (* material must be an instance of Material *)
| Msg_materials_empty            (* the list of materials cannot be empty *)
| Msg_perimeter_height_positive  (* perimeter and height must be positive *)
| Msg_openings_negative          (* door and window areas cannot be negative *)
| Msg_wall_area_positive         (* wall area after openings must be positive *)
| Msg_ceil_nan                   (* math.ceil: cannot convert float NaN to integer *)
| Msg_length_width_positive      (* length and width must be positive *)
| Msg_height_required            (* walls need a height *)
| Msg_surface_type               (* surface_type must be 'floor' or 'wall' *)
| Msg_must_be_positive (name : string) (* {name} must be a positive number *)
| Msg_must_be_number (name : string)   (* {name} must be a number *)
| Msg_not_a_float (s : string)   (* float(): could not convert string *)
| Msg_filename_empty             (* the file name cannot be empty *)
| Msg_no_data.                   (* no data to export *)

(** [ValueError] is what the specification calls InvalidArgument, and
    [ZeroDivisionError] what it calls DivisionByZero. *)
Inductive exn : Type :=
| ValueError (msg : error_message)
| ZeroDivisionError
| OverflowError
| TypeError
| NotImplementedError
| AttributeError.

(** [Unmodelled]: the call goes where the embedding does not follow the
    interpreter ([list.sort] with a NaN among the keys); nothing is said
    about what happens then. *)
Inductive outcome (A : Type) : Type :=
| Return (a : A)
| Raise (e : exn)
| Unmodelled.
Arguments Return {A} a.
Arguments Raise {A} e.
Arguments Unmodelled {A}.

Definition is_ValueError {A : Type} (o : outcome A) : Prop :=
  match o with
  | Raise (ValueError _) => True
  | _ => False
  end.

#[global] Instance outcome_ret : MRet outcome := λ A a, Return a.

#[global] Instance outcome_bind : MBind outcome := λ A B k o,
  match o with
  | Return a => k a
  | Raise e => Raise e
  | Unmodelled => Unmodelled
  end.

(** ** Python's numbers *)

Abbreviation float := spec_float.

Module Float.

Definition prec : Z := 53.
Definition emax : Z := 1024.

Definition nan : float := S754_nan.
Definition inf : float := S754_infinity false.

(** The float nearest to an integer; an infinity when the integer is
    beyond the largest float. *)
Definition of_Z (z : Z) : float := binary_normalize prec emax z 0 false.

(** The float nearest to the decimal [n / 10^k] (a literal such as [0.53]
    is [decimal 53 2]): the correctly rounded quotient of two integers that
    are floats themselves. *)
Definition decimal (n : Z) (k : nat) : float :=
  SFdiv prec emax (of_Z n) (of_Z (10 ^ Z.of_nat k)).

Definition add : float → float → float := SFadd prec emax.
Definition sub : float → float → float := SFsub prec emax.
Definition mul : float → float → float := SFmul prec emax.
Definition div : float → float → float := SFdiv prec emax.

Definition is_nan (x : float) : bool :=
  match x with S754_nan => true | _ => false end.

Definition is_infinity (x : float) : bool :=
  match x with S754_infinity _ => true | _ => false end.

Definition is_zero (x : float) : bool :=
  match x with S754_zero _ => true | _ => false end.

(** The rational a float stands for when it is finite (0 otherwise). *)
Definition to_Q (x : float) : Q :=
  match x with
  | S754_finite s m e => (inject_Z (cond_Zopp s (Zpos m)) * 2 ^ e)%Q
  | _ => 0%Q
  end.

(** An integer as numerator of a quotient: a mantissa of any length with
    exponent 0. *)
Definition of_numerator (z : Z) : float :=
  match z with
  | Z0 => S754_zero false
  | Zpos p => S754_finite false p 0
  | Zneg p => S754_finite true p 0
  end.

End Float.

Inductive number : Type :=
| Int (z : Z)
| Float (f : float).

(** [float(n)] for a number, as the mixed operators apply it. *)
Definition to_float (n : number) : outcome float :=
  match n with
  | Int z =>
      let f := Float.of_Z z in
      if Float.is_infinity f then Raise OverflowError else Return f
  | Float f => Return f
  end.

(** What a number stands for: a rational, an infinity, or nothing. *)
Inductive extended : Type :=
| NaN
| Minus_infinity
| Finite (q : Q)
| Plus_infinity.

Definition num_value (x : number) : extended :=
  match x with
  | Int z => Finite (inject_Z z)
  | Float S754_nan => NaN
  | Float (S754_infinity s) => if s then Minus_infinity else Plus_infinity
  | Float f => Finite (Float.to_Q f)
  end.

(** The order of two numbers; [None] when one of them is NaN.  Numbers are
    compared by value: an int and a float without rounding the int, and
    the two zeros of the floats as equal. *)
Definition compare_values (a b : extended) : option comparison :=
  match a, b with
  | NaN, _ | _, NaN => None
  | Finite p, Finite q => Some (p ?= q)%Q
  | Minus_infinity, Minus_infinity | Plus_infinity, Plus_infinity => Some Eq
  | Minus_infinity, _ | _, Plus_infinity => Some Lt
  | Plus_infinity, _ | _, Minus_infinity => Some Gt
  end.

Definition num_compare (x y : number) : option comparison :=
  compare_values (num_value x) (num_value y).

(** Python's [x < y], [x <= y] and [x == y] on numbers. *)
Definition num_ltb (x y : number) : bool :=
  match num_compare x y with Some Lt => true | _ => false end.

Definition num_leb (x y : number) : bool :=
  match num_compare x y with Some Lt | Some Eq => true | _ => false end.

Definition num_eqb (x y : number) : bool :=
  match num_compare x y with Some Eq => true | _ => false end.

Definition is_NaN (x : number) : bool :=
  match num_value x with NaN => true | _ => false end.

(** [x + y], [x - y], [x * y]: exact on two ints, on floats otherwise. *)
Definition arith (op_int : Z → Z → Z) (op_float : float → float → float)
    (x y : number) : outcome number :=
  match x, y with
  | Int a, Int b => Return (Int (op_int a b))
  | _, _ =>
      fx ← to_float x;
      fy ← to_float y;
      Return (Float (op_float fx fy))
  end.

Definition num_add : number → number → outcome number := arith Z.add Float.add.
Definition num_sub : number → number → outcome number := arith Z.sub Float.sub.
Definition num_mul : number → number → outcome number := arith Z.mul Float.mul.

(** [x / y]: always a float.  Two ints give the float nearest to their
    quotient, [OverflowError] when that is beyond the floats. *)
Definition true_div (x y : number) : outcome number :=
  match x, y with
  | Int a, Int b =>
      if b =? 0 then Raise ZeroDivisionError
      else
        let q := Float.div (Float.of_numerator a) (Float.of_numerator b) in
        if Float.is_infinity q then Raise OverflowError else Return (Float q)
  | _, _ =>
      fx ← to_float x;
      fy ← to_float y;
      if Float.is_zero fy then Raise ZeroDivisionError
      else Return (Float (Float.div fx fy))
  end.

(** [math.ceil(x)]: the least integer not below [x]. *)
Definition math_ceil (x : number) : outcome Z :=
  match num_value x with
  | NaN => Raise (ValueError Msg_ceil_nan)
  | Minus_infinity | Plus_infinity => Raise OverflowError
  | Finite q => Return (Qceiling q)
  end.



(** ** models.py *)

(** The attributes a subclass adds to those of [Material]. *)
Inductive MaterialClass : Type :=
| Material_base
| Wallpaper_cls (roll_width roll_length : number)
| Tile_cls (tiles_per_box tile_width tile_height : number)
| Laminate_cls (planks_per_pack plank_width plank_length : number).

Record Material : Type := mkMaterial {
  name : string;
  price_per_unit : number;
  unit_coverage : number;
  material_class : MaterialClass
}.

(** [Material.__init__(self, name, price_per_unit, unit_coverage)]: the three
    arguments are stored as they come. *)
Definition Material_init (name : string) (price_per_unit unit_coverage : number)
  : Material :=
  mkMaterial name price_per_unit unit_coverage Material_base.

(** [Wallpaper.__init__(self, name, price_per_roll, roll_width=0.53,
    roll_length=10.05)]. *)
Definition Wallpaper_init (name : string) (price_per_roll : number)
    (roll_width roll_length : number) : outcome Material :=
  coverage ← num_mul roll_width roll_length;
  Return (mkMaterial name price_per_roll coverage
                     (Wallpaper_cls roll_width roll_length)).

Definition Wallpaper_roll_width_default : number := Float (Float.decimal 53 2).
Definition Wallpaper_roll_length_default : number := Float (Float.decimal 1005 2).

(** [Tile.__init__(self, name, price_per_box, tiles_per_box, tile_width=0.3,
    tile_height=0.3)]. *)
Definition Tile_init (name : string) (price_per_box tiles_per_box : number)
    (tile_width tile_height : number) : outcome Material :=
  tile_area ← num_mul tile_width tile_height;
  coverage ← num_mul tile_area tiles_per_box;
  Return (mkMaterial name price_per_box coverage
                     (Tile_cls tiles_per_box tile_width tile_height)).

Definition Tile_width_default : number := Float (Float.decimal 3 1).
Definition Tile_height_default : number := Float (Float.decimal 3 1).

(** [Laminate.__init__(self, name, price_per_pack, planks_per_pack,
    plank_width=0.193, plank_length=1.380)]. *)
Definition Laminate_init (name : string) (price_per_pack planks_per_pack : number)
    (plank_width plank_length : number) : outcome Material :=
  plank_area ← num_mul plank_width plank_length;
  coverage ← num_mul plank_area planks_per_pack;
  Return (mkMaterial name price_per_pack coverage
                     (Laminate_cls planks_per_pack plank_width plank_length)).

Definition Laminate_plank_width_default : number := Float (Float.decimal 193 3).
Definition Laminate_plank_length_default : number := Float (Float.decimal 1380 3).

(** [CalculationResult.__init__]: five attributes, stored as they come. *)
Record CalculationResult : Type := mkCalculationResult {
  material : Material;
  area : number;
  units_needed : Z;
  total_cost : number;
  reserve_percent : number
}.

(** A Python value passed where a material is expected.
    [isinstance(v, Material)] holds for instances of [Material] and of its
    three subclasses, and for nothing else. *)
Inductive pyobject : Type :=
| PyMaterial (m : Material)
| PyNone
| PyNumber (n : number)
| PyString (s : string).

Definition isinstance_Material (v : pyobject) : bool :=
  match v with
  | PyMaterial _ => true
  | _ => false
  end.

(** ** The store of list objects *)

Definition loc : Type := positive.

Abbreviation store := (gmap loc (list CalculationResult)).

Definition list_contents (σ : store) (l : loc) : list CalculationResult :=
  default [] (σ !! l).

(** A list display or [list.copy()]: a new object. *)
Definition list_new (xs : list CalculationResult) (σ : store) : loc * store :=
  let l := fresh (dom σ) in (l, <[l := xs]> σ).

(** Any in-place operation on the list object [l]: [append], [clear],
    [sort], [pop], item assignment, ... *)
Definition list_update (l : loc)
    (f : list CalculationResult → list CalculationResult) (σ : store) : store :=
  <[l := f (list_contents σ l)]> σ.

Definition list_append (l : loc) (x : CalculationResult) : store → store :=
  list_update l (λ xs, xs ++ [x]).

Definition list_clear (l : loc) : store → store :=
  list_update l (λ _, []).

(** [list.sort(key=...)] is a stable sort that asks only [<] of the keys.
    When no key is NaN, [<] orders the keys and every stable sort returns
    the same list; insertion from the right end, placing an element in
    front of the first element whose key is not smaller than its own, is
    one such sort. *)
Section Sort.
Context {A : Type} (key : A → number).

Fixpoint insert_by_key (x : A) (xs : list A) : list A :=
  match xs with
  | [] => [x]
  | y :: ys =>
      if num_ltb (key y) (key x) then y :: insert_by_key x ys
      else x :: y :: ys
  end.

Fixpoint sort_by_key (xs : list A) : list A :=
  match xs with
  | [] => []
  | x :: xs' => insert_by_key x (sort_by_key xs')
  end.

Definition has_NaN_key (xs : list A) : bool :=
  existsb (λ x, is_NaN (key x)) xs.

Definition no_NaN_key (xs : list A) : Prop :=
  Forall (λ x, is_NaN (key x) = false) xs.

(** The order the sort establishes, and the test that selects the elements
    of one key. *)
Definition key_le (x y : A) : Prop := num_leb (key x) (key y) = true.

Definition same_key (k : number) (x : A) : bool := num_eqb (key x) k.
End Sort.

(** ** calculations.py: MaterialCalculator *)

Record MaterialCalculator : Type := mkMaterialCalculator {
  _reserve_percent : number;
  _calculations_history : loc
}.

(** What a method call sees and leaves behind: the receiver and the store. *)
Record world : Type := mkWorld {
  self : MaterialCalculator;
  heap : store
}.

Definition M (A : Type) : Type := world → outcome A * world.

#[global] Instance M_ret : MRet M := λ A a w, (Return a, w).

#[global] Instance M_bind : MBind M := λ A B k c w,
  match c w with
  | (Return a, w') => k a w'
  | (Raise e, w') => (Raise e, w')
  | (Unmodelled, w') => (Unmodelled, w')
  end.

Definition raise {A : Type} (e : exn) : M A := λ w, (Raise e, w).

Definition lift_outcome {A : Type} (o : outcome A) : M A := λ w, (o, w).

Definition get_self : M MaterialCalculator := λ w, (Return (self w), w).

Definition set_self (c : MaterialCalculator) : M unit :=
  λ w, (Return tt, mkWorld c (heap w)).

Definition get_heap : M store := λ w, (Return (heap w), w).

Definition modify_heap (f : store → store) : M unit :=
  λ w, (Return tt, mkWorld (self w) (f (heap w))).

Definition alloc_list (xs : list CalculationResult) : M loc :=
  λ w, let (l, σ) := list_new xs (heap w) in (Return l, mkWorld (self w) σ).

(** [l.sort(key=key)] on the list object [l]. *)
Definition list_sort (l : loc) (key : CalculationResult → number) : M unit :=
  σ ← get_heap;
  if has_NaN_key key (list_contents σ l) then lift_outcome Unmodelled
  else modify_heap (list_update l (sort_by_key key)).

(** [for x in xs: body(x)] *)
Fixpoint for_each {A : Type} (xs : list A) (body : A → M unit) : M unit :=
  match xs with
  | [] => mret tt
  | x :: xs' => body x;; for_each xs' body
  end.

Module MaterialCalculator.

(** [MaterialCalculator(reserve_percent=10)] evaluated in store [σ]: the
    argument is assigned to the attribute directly, and the history is a
    new empty list. *)
Definition init (reserve_percent : number) (σ : store) : world :=
  let (l, σ') := list_new [] σ in
  mkWorld (mkMaterialCalculator reserve_percent l) σ'.

Definition reserve_percent_default : number := Int 10.

(** The [reserve_percent] property. *)
Definition reserve_percent_get : M number :=
  c ← get_self; mret (_reserve_percent c).

Definition reserve_percent_set (value : number) : M unit :=
  if num_ltb value (Int 0) || num_ltb (Int 100) value
  then raise (ValueError Msg_reserve_percent_range)
  else c ← get_self;
       set_self (mkMaterialCalculator value (_calculations_history c)).

(** Lines 64 and 67: [area * (1 + self._reserve_percent / 100)], divided by
    the coverage of a unit; the operands are evaluated in Python's order. *)
Definition units_quotient (reserve_percent area unit_coverage : number)
  : outcome number :=
  ratio ← true_div reserve_percent (Int 100);
  factor ← num_add (Int 1) ratio;
  area_with_reserve ← num_mul area factor;
  true_div area_with_reserve unit_coverage.

(** Lines 64-79: the result of the calculation at reserve [reserve]. *)
Definition calculate_result (reserve : number) (m : Material) (area : number)
  : outcome CalculationResult :=
  quotient ← units_quotient reserve area (unit_coverage m);
  units_needed ← math_ceil quotient;
  total_cost ← num_mul (Int units_needed) (price_per_unit m);
  Return (mkCalculationResult m area units_needed total_cost reserve).

Definition calculate (material : pyobject) (area : number) : M CalculationResult :=
  if num_leb area (Int 0) then raise (ValueError Msg_area_positive)
  else match material with
  | PyMaterial m =>
      c ← get_self;
      result ← lift_outcome (calculate_result (_reserve_percent c) m area);
      modify_heap (list_append (_calculations_history c) result);;
      mret result
  | _ => raise (ValueError Msg_material_instance)
  end.

Definition get_history : M loc :=
  c ← get_self;
  σ ← get_heap;
  alloc_list (list_contents σ (_calculations_history c)).

Definition clear_history : M unit :=
  c ← get_self;
  modify_heap (list_clear (_calculations_history c)).

Definition compare_materials (materials : list pyobject) (area : number) : M loc :=
  match materials with
  | [] => raise (ValueError Msg_materials_empty)
  | _ =>
      results ← alloc_list [];
      for_each materials (λ material,
        result ← calculate material area;
        modify_heap (list_append results result));;
      list_sort results total_cost;;
      mret results
  end.

End MaterialCalculator.

(** ** calculations.py: RoomCalculator *)

(** A room calculator has one attribute, the material calculator it
    creates for itself and hands to nobody. *)
Record RoomCalculator : Type := mkRoomCalculator {
  _material_calculator : MaterialCalculator
}.

Module RoomCalculator.

(** [RoomCalculator()] evaluated in store [σ]. *)
Definition init (σ : store) : RoomCalculator * store :=
  let w := MaterialCalculator.init MaterialCalculator.reserve_percent_default σ in
  (mkRoomCalculator (self w), heap w).

(** A method of the owned material calculator, called on it. *)
Definition delegate {A : Type} (call : M A) (rc : RoomCalculator) (σ : store)
  : outcome A * (RoomCalculator * store) :=
  let (o, w) := call (mkWorld (_material_calculator rc) σ) in
  (o, (mkRoomCalculator (self w), heap w)).

(** The [reserve_percent] property: both accessors go to the owned
    calculator. *)
Definition reserve_percent_get
  : RoomCalculator → store → outcome number * (RoomCalculator * store) :=
  delegate MaterialCalculator.reserve_percent_get.

Definition reserve_percent_set (value : number)
  : RoomCalculator → store → outcome unit * (RoomCalculator * store) :=
  delegate (MaterialCalculator.reserve_percent_set value).

(** [calculate_floor_area(self, length, width)] and [calculate_wall_area]
    read and write no attribute of the receiver, so they are functions of
    their numbers. *)
Definition calculate_floor_area (length width : number) : outcome number :=
  if num_leb length (Int 0) || num_leb width (Int 0)
  then Raise (ValueError Msg_length_width_positive)
  else num_mul length width.

(** Lines 180-181: [perimeter * height - door_area - window_area]. *)
Definition wall_expression (perimeter height door_area window_area : number)
  : outcome number :=
  total_wall_area ← num_mul perimeter height;
  without_doors ← num_sub total_wall_area door_area;
  num_sub without_doors window_area.

(** [calculate_wall_area(self, perimeter, height, door_area=0,
    window_area=0)] *)
Definition calculate_wall_area (perimeter height door_area window_area : number)
  : outcome number :=
  if num_leb perimeter (Int 0) || num_leb height (Int 0)
  then Raise (ValueError Msg_perimeter_height_positive)
  else if num_ltb door_area (Int 0) || num_ltb window_area (Int 0)
  then Raise (ValueError Msg_openings_negative)
  else
    result_area ← wall_expression perimeter height door_area window_area;
    if num_leb result_area (Int 0)
    then Raise (ValueError Msg_wall_area_positive)
    else Return result_area.

Definition height_default : option number := None.
Definition surface_type_default : string := "floor".

(** Lines 205-213: the area of the surface asked for. *)
Definition room_area (length width : number) (height : option number)
    (door_area window_area : number) (surface_type : string) : outcome number :=
  if String.eqb surface_type "floor" then
    calculate_floor_area length width
  else if String.eqb surface_type "wall" then
    match height with
    | None => Raise (ValueError Msg_height_required)
    | Some height =>
        sides ← num_add length width;
        perimeter ← num_mul (Int 2) sides;
        calculate_wall_area perimeter height door_area window_area
    end
  else Raise (ValueError Msg_surface_type).

(** [calculate_materials_for_room(self, material, length, width,
    height=None, door_area=0, window_area=0, surface_type='floor')] *)
Definition calculate_materials_for_room
    (material : pyobject) (length width : number) (height : option number)
    (door_area window_area : number) (surface_type : string)
    (rc : RoomCalculator) (σ : store)
  : outcome CalculationResult * (RoomCalculator * store) :=
  match room_area length width height door_area window_area surface_type with
  | Return area => delegate (MaterialCalculator.calculate material area) rc σ
  | Raise e => (Raise e, (rc, σ))
  | Unmodelled => (Unmodelled, (rc, σ))
  end.

End RoomCalculator.

(** ** calculations.py: validate_positive_number *)

Section ValidatePositiveNumber.

(** [float(s)] on a string: the float the string denotes, if it denotes
    one ([float('nan')] and [float('inf')] do).  The grammar of Python's
    float literals is not repeated here. *)
Variable parse_float : string → option float.

(** [float(value)] *)
Definition float_of (value : pyobject) : outcome float :=
  match value with
  | PyNumber n => to_float n
  | PyString s =>
      match parse_float s with
      | Some f => Return f
      | None => Raise (ValueError (Msg_not_a_float s))
      end
  | PyNone | PyMaterial _ => Raise TypeError
  end.

(** An exception that [except (TypeError, ValueError)] catches. *)
Definition is_TypeError_or_ValueError (e : exn) : bool :=
  match e with
  | TypeError | ValueError _ => true
  | _ => false
  end.

(** [validate_positive_number(value, name)]: the [try] body, then the
    [except (TypeError, ValueError)] clause around it. *)
Definition validate_positive_number (value : pyobject) (name : string)
  : outcome float :=
  let body :=
    num ← float_of value;
    if num_leb (Float num) (Int 0)
    then Raise (ValueError (Msg_must_be_positive name))
    else Return num in
  match body with
  | Raise e =>
      if is_TypeError_or_ValueError e
      then Raise (ValueError (Msg_must_be_number name))
      else Raise e
  | other => other
  end.

End ValidatePositiveNumber.

(** ** exporters.py

    An exporter keeps a file name and a count of exports.  The clock is
    read through [strftime]: the model takes the formatted reading as an
    argument of the function that reads it.  Files are a map from names to
    saved documents.  Of a workbook the model keeps the values of the cells
    and which cells lie inside a merged range, not fonts, borders, number
    formats or column widths. *)

Record Exporter : Type := mkExporter {
  _filename : option string;
  _export_count : Z
}.

(** [not value] for a file name: [None] and the empty string are false. *)
Definition filename_is_empty (value : option string) : bool :=
  match value with
  | None => true
  | Some s => String.eqb s ""
  end.

(** What [export] may be given: one result, a list of results, or [None]. *)
Inductive export_argument : Type :=
| Export_result (r : CalculationResult)
| Export_list (rs : list CalculationResult)
| Export_None.

(** Lines 92-95: a single result is wrapped in a list; [None] is as false
    as the empty list, and holds as little. *)
Definition listed (results : export_argument) : list CalculationResult :=
  match results with
  | Export_result r => [r]
  | Export_list rs => rs
  | Export_None => []
  end.


Module BaseExporter.

Definition init (filename : option string) : Exporter :=
  mkExporter filename 0.


(** [_generate_filename(self, extension)], with [timestamp] the reading
    [datetime.now().strftime("%Y%m%d_%H%M%S")]. *)
Definition _generate_filename (timestamp extension : string) : string :=
  "calculation_report_" +:+ timestamp +:+ "." +:+ extension.

Definition export (results : export_argument) (ex : Exporter)
  : outcome string * Exporter :=
  (Raise NotImplementedError, ex).

(** The frame the two subclasses share, line for line: lines 92-100 and
    169-172 of [DocxExporter.export], 201-209 and 286-289 of
    [ExcelExporter.export].  [build] is what happens in between: the
    document is made, or an exception leaves the method with the file name
    already assigned, nothing saved and nothing counted. *)
Definition export_with {D : Type} (extension : string)
    (build : list CalculationResult → outcome D)
    (results : export_argument) (timestamp : string)
    (ex : Exporter) (files : gmap string D)
  : outcome string * (Exporter * gmap string D) :=
  let results := listed results in
  match results with
  | [] => (Raise (ValueError Msg_no_data), (ex, files))
  | _ =>
      let filename :=
        if filename_is_empty (_filename ex)
        then _generate_filename timestamp extension
        else default "" (_filename ex) in
      let ex := mkExporter (Some filename) (_export_count ex) in
      match build results with
      | Return document =>
          (Return filename,
           (mkExporter (Some filename) (_export_count ex + 1),
            <[filename := document]> files))
      | Raise e => (Raise e, (ex, files))
      | Unmodelled => (Unmodelled, (ex, files))
      end
  end.



End BaseExporter.

(** A value written to a cell of a worksheet. *)
Inductive cell_value : Type :=
| Cell_str (s : string)
| Cell_int (z : Z)
| Cell_num (n : number).

Abbreviation worksheet := (gmap (nat * nat) cell_value).

Module ExcelExporter.

(** [ws.cell(row=row, column=column, value=value)] *)
Definition set_cell (row column : nat) (value : cell_value) (ws : worksheet)
  : worksheet :=
  <[(row, column) := value]> ws.

Definition headers : list string :=
  ["№"; "Материал"; "Площадь (м²)"; "Запас (%)"; "Количество";
   "Стоимость (₽)"].

(** Lines 239-245: [for col, header in enumerate(headers, 1)]. *)
Fixpoint write_headers (col : nat) (hs : list string) (ws : worksheet)
  : worksheet :=
  match hs with
  | [] => ws
  | header :: hs' => write_headers (S col) hs' (set_cell 4 col (Cell_str header) ws)
  end.

(** Lines 248-261: [for idx, result in enumerate(results, 1)], with [row]
    counted along; the row reached is returned with the sheet. *)
Fixpoint write_rows (row idx : nat) (results : list CalculationResult)
    (ws : worksheet) : nat * worksheet :=
  match results with
  | [] => (row, ws)
  | result :: results' =>
      let ws := set_cell row 1 (Cell_int (Z.of_nat idx)) ws in
      let ws := set_cell row 2 (Cell_str (name (material result))) ws in
      let ws := set_cell row 3 (Cell_num (area result)) ws in
      let ws := set_cell row 4 (Cell_num (reserve_percent result)) ws in
      let ws := set_cell row 5 (Cell_int (units_needed result)) ws in
      let ws := set_cell row 6 (Cell_num (total_cost result)) ws in
      write_rows (S row) (S idx) results' ws
  end.

(** Lines 226 and 232 merge [A1:F1] and [A2:F2]: in rows 1 and 2 the cells
    of columns 2 to 6 are merged cells, which carry no [column_letter]. *)
Definition is_merged_cell (row column : nat) : bool :=
  ((row =? 1) || (row =? 2))%nat && ((2 <=? column) && (column <=? 6))%nat.

(** Lines 273-283: [for column in ws.columns], reading
    [column[0].column_letter] of the cell in row 1 of each column. *)
Fixpoint fit_column_widths (columns : list nat) : outcome unit :=
  match columns with
  | [] => Return tt
  | column :: columns' =>
      if is_merged_cell 1 column then Raise AttributeError
      else fit_column_widths columns'
  end.

Section Workbook.

(** Python's [sum] on a list of numbers.  What it returns on floats
    depends on the interpreter (from version 3.12 the summation is
    compensated), so the built-in is taken as it comes. *)
Variable py_sum : list number → outcome number.

(** Lines 212-270, the values only; [date] is the reading
    [datetime.now().strftime("%d.%m.%Y %H:%M")]. *)
Definition build_sheet (date : string) (results : list CalculationResult)
  : outcome worksheet :=
  let ws : worksheet := ∅ in
  let ws := set_cell 1 1 (Cell_str "ОТЧЁТ ПО РАСЧЁТУ ОТДЕЛОЧНЫХ МАТЕРИАЛОВ") ws in
  let ws := set_cell 2 1 (Cell_str ("Дата: " +:+ date)) ws in
  let ws := write_headers 1 headers ws in
  let (row, ws) := write_rows 5 1 results ws in
  if (1 <? length results)%nat then
    let row := S row in
    let ws := set_cell row 1 (Cell_str "ИТОГО:") ws in
    total_area ← py_sum (map area results);
    let ws := set_cell row 3 (Cell_num total_area) ws in
    total ← py_sum (map total_cost results);
    let ws := set_cell row 6 (Cell_num total) ws in
    Return ws
  else Return ws.

(** Lines 212-283: the workbook that would be saved. *)
Definition build_workbook (date : string) (results : list CalculationResult)
  : outcome worksheet :=
  ws ← build_sheet date results;
  fit_column_widths (seq 1 (length headers));;
  Return ws.

Definition export (results : export_argument) (timestamp date : string)
  : Exporter → gmap string worksheet
    → outcome string * (Exporter * gmap string worksheet) :=
  BaseExporter.export_with "xlsx" (build_workbook date) results timestamp.

End Workbook.

End ExcelExporter.

Module DocxExporter.
Section Document.

(** What lines 103-166 do with the [docx] library, as a function of the
    results and of the clock reading of line 111: the document they
    assemble, or the exception that formatting a number or summing one
    raises. *)
Context {document : Type}
  (build_document : string → list CalculationResult → outcome document).

Definition export (results : export_argument) (timestamp date : string)
  : Exporter → gmap string document
    → outcome string * (Exporter * gmap string document) :=
  BaseExporter.export_with "docx" (build_document date) results timestamp.

End Document.
End DocxExporter.

(** ** Predicates used in the statements *)

(** Python's comparisons as propositions. *)
Definition num_lt (x y : number) : Prop := num_ltb x y = true.
Definition num_le (x y : number) : Prop := num_leb x y = true.
Definition num_eq (x y : number) : Prop := num_eqb x y = true.

(** A number that is neither an infinity nor NaN, and the rational it
    stands for. *)
Definition is_finite (x : number) : Prop := ∃ q, num_value x = Finite q.

Definition num_to_Q (x : number) : Q :=
  match num_value x with
  | Finite q => q
  | _ => 0%Q
  end.

(** A float that is not NaN and carries the sign [s]. *)
Definition has_sign (s : bool) (f : float) : Prop :=
  match f with
  | S754_zero s' | S754_infinity s' | S754_finite s' _ _ => s' = s
  | S754_nan => False
  end.

(** What the arithmetic of [calculate] can raise. *)
Definition arithmetic_error (e : exn) : Prop :=
  e = ZeroDivisionError ∨ e = OverflowError ∨ e = ValueError Msg_ceil_nan.

(** The bounds the specification puts on a material. *)
Definition Material_invariant (m : Material) : Prop :=
  num_lt (Int 0) (unit_coverage m) ∧ num_le (Int 0) (price_per_unit m).

(** The range the [reserve_percent] setter documents. *)
Definition reserve_in_range (c : MaterialCalculator) : Prop :=
  num_le (Int 0) (_reserve_percent c) ∧ num_le (_reserve_percent c) (Int 100).

(** What the setter's test lets through: a reserve that is neither below
    0 nor above 100. *)
Definition reserve_accepted (c : MaterialCalculator) : Prop :=
  num_ltb (_reserve_percent c) (Int 0) = false ∧
  num_ltb (Int 100) (_reserve_percent c) = false.

(** The receiver's history is a list object of the store (a Python
    reference never dangles). *)
Definition history_allocated (w : world) : Prop :=
  _calculations_history (self w) ∈ dom (heap w).

(** The history of the receiver, read through its reference. *)
Definition history (w : world) : list CalculationResult :=
  list_contents (heap w) (_calculations_history (self w)).

(** [calculate] called once per element, in the order of the list, every
    call returning: the results in call order, and the world after the last
    call. *)
Inductive calculate_each (area : number)
  : list pyobject → world → list CalculationResult → world → Prop :=
| calculate_each_nil w :
    calculate_each area [] w [] w
| calculate_each_cons m ms w r w1 rs w2 :
    MaterialCalculator.calculate m area w = (Return r, w1) →
    calculate_each area ms w1 rs w2 →
    calculate_each area (m :: ms) w (r :: rs) w2.

(** The public operations of a [MaterialCalculator], and the world a call
    leaves behind, whether it returned or raised. *)
Inductive method_call : Type :=
| Call_reserve_percent_set (value : number)
| Call_calculate (material : pyobject) (area : number)
| Call_get_history
| Call_clear_history
| Call_compare_materials (materials : list pyobject) (area : number).

Definition run_call (c : method_call) (w : world) : world :=
  match c with
  | Call_reserve_percent_set value =>
      snd (MaterialCalculator.reserve_percent_set value w)
  | Call_calculate material area =>
      snd (MaterialCalculator.calculate material area w)
  | Call_get_history => snd (MaterialCalculator.get_history w)
  | Call_clear_history => snd (MaterialCalculator.clear_history w)
  | Call_compare_materials materials area =>
      snd (MaterialCalculator.compare_materials materials area w)
  end.

Definition run_calls (cs : list method_call) (w : world) : world :=
  fold_left (λ w c, run_call c w) cs w.

(** What a call may change: the reserve only through the setter and only to
    a value its test lets through, never the reference to the history, and
    no list object is removed from the store. *)
Definition call_keeps (w w' : world) : Prop :=
  (reserve_accepted (self w) → reserve_accepted (self w')) ∧
  _calculations_history (self w') = _calculations_history (self w) ∧
  dom (heap w) ⊆ dom (heap w').

(** The public operations of a [RoomCalculator] that can touch its state,
    and the state a call leaves behind. *)
Inductive room_call : Type :=
| Room_reserve_percent_set (value : number)
| Room_calculate_materials_for_room
    (material : pyobject) (length width : number) (height : option number)
    (door_area window_area : number) (surface_type : string).

Definition run_room_call (c : room_call) (s : RoomCalculator * store)
  : RoomCalculator * store :=
  match c with
  | Room_reserve_percent_set value =>
      snd (RoomCalculator.reserve_percent_set value (fst s) (snd s))
  | Room_calculate_materials_for_room m l w h d wn t =>
      snd (RoomCalculator.calculate_materials_for_room m l w h d wn t
             (fst s) (snd s))
  end.

Definition run_room_calls (cs : list room_call) (s : RoomCalculator * store)
  : RoomCalculator * store :=
  fold_left (λ s c, run_room_call c s) cs s.

(** Decimal literals: [dec 25 1] is the Python literal [2.5]. *)
Definition dec (n : Z) (k : nat) : number := Float (Float.decimal n k).

(** * Properties *)

(** ** Numbers: comparisons and [math.ceil] *)

Section NumberFacts.

Lemma to_Q_finite_pos m e : (0 < Float.to_Q (S754_finite false m e))%Q.
Proof.
  simpl. apply Qmult_lt_0_compat.
  - unfold Qlt. simpl. lia.
  - apply Qpower_0_lt. reflexivity.
Qed.

Lemma to_Q_finite_neg m e : (Float.to_Q (S754_finite true m e) < 0)%Q.
Proof.
  pose proof (to_Q_finite_pos m e) as H. simpl in *.
  assert (inject_Z (Z.neg m) == - inject_Z (Z.pos m))%Q as -> by reflexivity.
  lra.
Qed.

Lemma Qcompare_inject_Z a b : (inject_Z a ?= inject_Z b)%Q = (a ?= b).
Proof. unfold Qcompare. simpl. by rewrite !Z.mul_1_r. Qed.


Lemma is_finite_value x : is_finite x → num_value x = Finite (num_to_Q x).
Proof. intros [q Hq]. unfold num_to_Q. by rewrite Hq. Qed.

Lemma is_finite_Int z : is_finite (Int z).
Proof. by eexists. Qed.

(** Against a finite number, the comparisons are those of the rationals. *)
Lemma num_ltb_finite x y :
  is_finite x → is_finite y →
  num_ltb x y = true ↔ (num_to_Q x < num_to_Q y)%Q.
Proof.
  intros Hx%is_finite_value Hy%is_finite_value.
  unfold num_ltb, num_compare. rewrite Hx, Hy. simpl.
  rewrite Qlt_alt. by destruct (_ ?= _)%Q.
Qed.

Lemma num_leb_finite x y :
  is_finite x → is_finite y →
  num_leb x y = true ↔ (num_to_Q x <= num_to_Q y)%Q.
Proof.
  intros Hx%is_finite_value Hy%is_finite_value.
  unfold num_leb, num_compare. rewrite Hx, Hy. simpl.
  rewrite Qle_alt. by destruct (_ ?= _)%Q.
Qed.

Lemma num_eqb_finite x y :
  is_finite x → is_finite y →
  num_eqb x y = true ↔ (num_to_Q x == num_to_Q y)%Q.
Proof.
  intros Hx%is_finite_value Hy%is_finite_value.
  unfold num_eqb, num_compare. rewrite Hx, Hy. simpl.
  rewrite Qeq_alt. by destruct (_ ?= _)%Q.
Qed.

(** [x <= y] is [x < y or x == y]; [x < y] excludes [y <= x]. *)
Lemma num_leb_ltb_eqb x y : num_leb x y = num_ltb x y || num_eqb x y.
Proof.
  unfold num_leb, num_ltb, num_eqb. by destruct (num_compare x y) as [[]|].
Qed.

Lemma compare_values_antisym a b :
  compare_values b a = option_map CompOpp (compare_values a b).
Proof.
  destruct a, b; simpl; try done. by rewrite <- Qcompare_antisym.
Qed.

Lemma num_compare_antisym x y :
  num_compare y x = option_map CompOpp (num_compare x y).
Proof. apply compare_values_antisym. Qed.

Lemma num_ltb_asym x y : num_ltb x y = true → num_ltb y x = false.
Proof.
  unfold num_ltb. rewrite (num_compare_antisym x y).
  by destruct (num_compare x y) as [[]|].
Qed.

Lemma num_ltb_not_leb x y : num_ltb x y = true → num_leb y x = false.
Proof.
  unfold num_ltb, num_leb. rewrite (num_compare_antisym x y).
  by destruct (num_compare x y) as [[]|].
Qed.

(** Without NaN the order is total. *)
Lemma num_compare_Some x y :
  is_NaN x = false → is_NaN y = false → ∃ c, num_compare x y = Some c.
Proof.
  unfold is_NaN, num_compare.
  destruct (num_value x), (num_value y); simpl; try done; eauto.
Qed.

Lemma num_leb_total x y :
  is_NaN x = false → is_NaN y = false →
  num_ltb y x = false → num_leb x y = true.
Proof.
  intros Hx Hy. destruct (num_compare_Some x y Hx Hy) as [c Hc].
  unfold num_ltb, num_leb. rewrite (num_compare_antisym x y), Hc.
  by destruct c.
Qed.

Lemma num_leb_ltb_false x y : num_leb x y = true → num_ltb y x = false.
Proof.
  unfold num_ltb, num_leb. rewrite (num_compare_antisym x y).
  by destruct (num_compare x y) as [[]|].
Qed.

Lemma compare_values_trans a b c :
  compare_values a b = Some Lt ∨ compare_values a b = Some Eq →
  compare_values b c = Some Lt ∨ compare_values b c = Some Eq →
  compare_values a c = Some Lt ∨ compare_values a c = Some Eq.
Proof.
  destruct a as [| |p|], b as [| |q|], c as [| |r|]; simpl;
    try (intros [?|?] [?|?]; done); try (intros; by left);
    try (intros; by right).
  intros Hab Hbc.
  assert (p <= q)%Q as H1.
  { apply Qle_alt. by destruct Hab as [[= ->]|[= ->]]. }
  assert (q <= r)%Q as H2.
  { apply Qle_alt. by destruct Hbc as [[= ->]|[= ->]]. }
  assert (p <= r)%Q as H3 by lra.
  apply Qle_alt in H3. destruct (p ?= r)%Q eqn:E; auto. exfalso. by apply H3.
Qed.

Lemma num_leb_trans x y z :
  num_leb x y = true → num_leb y z = true → num_leb x z = true.
Proof.
  unfold num_leb, num_compare. intros Hxy Hyz.
  destruct (compare_values_trans (num_value x) (num_value y) (num_value z))
    as [->| ->]; try done.
  - by destruct (compare_values (num_value x) (num_value y)) as [[]|]; auto.
  - by destruct (compare_values (num_value y) (num_value z)) as [[]|]; auto.
Qed.

Lemma num_leb_NaN_l x y : num_leb x y = true → is_NaN x = false.
Proof.
  unfold num_leb, num_compare, is_NaN. by destruct (num_value x).
Qed.

Lemma num_leb_NaN_r x y : num_leb x y = true → is_NaN y = false.
Proof.
  unfold num_leb, num_compare, is_NaN.
  by destruct (num_value x), (num_value y).
Qed.

(** [math.ceil] returns on the finite numbers and on no other. *)
Lemma math_ceil_Return q u :
  math_ceil q = Return u ↔ is_finite q ∧ u = Qceiling (num_to_Q q).
Proof.
  unfold math_ceil, is_finite, num_to_Q.
  destruct (num_value q) as [| |r|]; split;
    try (intros [[? [=]] _]; done); try done.
  - intros [= <-]. eauto.
  - by intros [_ ->].
Qed.

Lemma math_ceil_bounds q u :
  math_ceil q = Return u →
  (inject_Z (u - 1) < num_to_Q q <= inject_Z u)%Q.
Proof.
  intros [_ ->]%math_ceil_Return. split.
  - apply Qceiling_lt.
  - apply Qle_ceiling.
Qed.

Lemma math_ceil_positive q u :
  math_ceil q = Return u → (1 <= u ↔ num_lt (Int 0) q).
Proof.
  intros H. pose proof (math_ceil_bounds q u H) as [Hlo Hhi].
  apply math_ceil_Return in H as [Hfin _].
  unfold num_lt. rewrite (num_ltb_finite _ _ (is_finite_Int 0) Hfin).
  change (num_to_Q (Int 0)) with (inject_Z 0).
  split.
  - intros Hu. apply Qle_lt_trans with (inject_Z (u - 1)); [|exact Hlo].
    rewrite <- Zle_Qle. lia.
  - intros Hq.
    assert (inject_Z 0 < inject_Z u)%Q as Hu
      by (eapply Qlt_le_trans; [exact Hq|exact Hhi]).
    rewrite <- Zlt_Qlt in Hu. lia.
Qed.

End NumberFacts.

(** ** Floats: the sign of a rounded result *)

Section Rounding.

Lemma shr_1_nonneg r : 0 <= shr_m r → 0 <= shr_m (shr_1 r).
Proof. destruct r as [[|[p|p|]|[p|p|]] r s]; simpl; lia. Qed.

Lemma shr_1_div2 r : 0 <= shr_m r → shr_m (shr_1 r) = shr_m r / 2.
Proof.
  destruct r as [[|[p|p|]|p] r s]; simpl; try done; try lia; intros _.
  - rewrite Pos2Z.inj_xI. apply (Z.div_unique _ _ _ 1); lia.
  - rewrite Pos2Z.inj_xO. apply (Z.div_unique _ _ _ 0); lia.
Qed.

Lemma iter_shr_1_nonneg n r :
  0 <= shr_m r → 0 <= shr_m (SpecFloat.iter_pos shr_1 n r).
Proof.
  revert r. induction n as [n IH|n IH|]; intros r Hr; simpl.
  - apply IH, IH, shr_1_nonneg, Hr.
  - apply IH, IH, Hr.
  - apply shr_1_nonneg, Hr.
Qed.

Lemma iter_shr_1_div n r :
  0 <= shr_m r → shr_m (SpecFloat.iter_pos shr_1 n r) = shr_m r / 2 ^ Z.pos n.
Proof.
  revert r. induction n as [n IH|n IH|]; intros r Hr; simpl SpecFloat.iter_pos.
  - rewrite IH by (apply iter_shr_1_nonneg, shr_1_nonneg, Hr).
    rewrite IH by (apply shr_1_nonneg, Hr).
    rewrite shr_1_div2 by exact Hr.
    rewrite !Z.div_div by lia. f_equal.
    rewrite Pos2Z.inj_xI, Z.pow_add_r, Z.pow_twice_r by lia. ring.
  - rewrite IH by (apply iter_shr_1_nonneg, Hr).
    rewrite IH by exact Hr.
    rewrite !Z.div_div by lia. f_equal.
    rewrite <- Z.pow_add_r by lia. f_equal. lia.
  - rewrite shr_1_div2 by exact Hr. reflexivity.
Qed.

Lemma shr_record_of_loc_m m l : shr_m (shr_record_of_loc m l) = m.
Proof. by destruct l as [|[]]. Qed.

Lemma round_nearest_even_ge m l : m <= round_nearest_even m l.
Proof.
  destruct l as [|[]]; simpl; try lia. destruct (Z.even m); lia.
Qed.

Lemma digits2_pos_lower p : 2 ^ (Z.pos (digits2_pos p) - 1) <= Z.pos p.
Proof.
  induction p as [p IH|p IH|]; simpl digits2_pos; [| |done].
  - rewrite Pos2Z.inj_succ.
    replace (Z.succ (Z.pos (digits2_pos p)) - 1)
      with (Z.succ (Z.pos (digits2_pos p) - 1)) by lia.
    rewrite Z.pow_succ_r by lia. lia.
  - rewrite Pos2Z.inj_succ.
    replace (Z.succ (Z.pos (digits2_pos p)) - 1)
      with (Z.succ (Z.pos (digits2_pos p) - 1)) by lia.
    rewrite Z.pow_succ_r by lia. lia.
Qed.

(** One alignment step of the rounding keeps a mantissa that is not
    negative so, and above the least exponent keeps a positive one
    positive. *)
Lemma shr_fexp_nonneg m e l :
  0 <= m → 0 <= shr_m (fst (shr_fexp Float.prec Float.emax m e l)).
Proof.
  intros Hm. unfold shr_fexp, shr.
  destruct (_ - e) as [|k|k]; cbn [fst]; rewrite ?shr_record_of_loc_m; try done.
  apply iter_shr_1_nonneg. by rewrite shr_record_of_loc_m.
Qed.

Lemma shr_fexp_pos m e l :
  0 < m → emin Float.prec Float.emax <= e →
  0 < shr_m (fst (shr_fexp Float.prec Float.emax m e l)) ∧
  emin Float.prec Float.emax <= snd (shr_fexp Float.prec Float.emax m e l).
Proof.
  intros Hm He. unfold shr_fexp, shr.
  destruct (fexp Float.prec Float.emax (Zdigits2 m + e) - e) as [|k|k] eqn:Hk;
    cbn [fst snd]; rewrite ?shr_record_of_loc_m; try done.
  rewrite iter_shr_1_div by (rewrite shr_record_of_loc_m; lia).
  rewrite shr_record_of_loc_m.
  destruct m as [|p|p]; try lia. simpl Zdigits2 in Hk.
  unfold fexp in Hk.
  assert (Z.pos k <= Z.pos (digits2_pos p) - 1) as Hle.
  { unfold Float.prec in *. lia. }
  split; [|lia].
  apply Z.div_str_pos. split; [apply Z.pow_pos_nonneg; lia|].
  etrans; [|apply digits2_pos_lower].
  apply Z.pow_le_mono_r; lia.
Qed.

Lemma binary_round_aux_sign sx mx ex lx :
  0 <= mx → has_sign sx (binary_round_aux Float.prec Float.emax sx mx ex lx).
Proof.
  intros Hm. unfold binary_round_aux.
  pose proof (shr_fexp_nonneg mx ex lx Hm) as H1.
  destruct (shr_fexp Float.prec Float.emax mx ex lx) as [r1 e1].
  cbn [fst] in H1.
  set (m1 := round_nearest_even (shr_m r1) (loc_of_shr_record r1)).
  assert (0 <= m1) as Hm1.
  { etrans; [exact H1|apply round_nearest_even_ge]. }
  pose proof (shr_fexp_nonneg m1 e1 loc_Exact Hm1) as H2.
  destruct (shr_fexp Float.prec Float.emax m1 e1 loc_Exact) as [r2 e2].
  cbn [fst] in H2.
  revert H2. destruct (shr_m r2) as [|q|q]; intros H2; simpl; try done;
    try lia.
  by destruct (e2 <=? _).
Qed.

Lemma binary_round_aux_nonzero sx mx ex lx :
  0 < mx → emin Float.prec Float.emax <= ex →
  Float.is_zero (binary_round_aux Float.prec Float.emax sx mx ex lx) = false.
Proof.
  intros Hm He. unfold binary_round_aux.
  pose proof (shr_fexp_pos mx ex lx Hm He) as [H1 He1].
  destruct (shr_fexp Float.prec Float.emax mx ex lx) as [r1 e1].
  cbn [fst snd] in H1, He1.
  set (m1 := round_nearest_even (shr_m r1) (loc_of_shr_record r1)).
  assert (0 < m1) as Hm1.
  { eapply Z.lt_le_trans; [exact H1|apply round_nearest_even_ge]. }
  pose proof (shr_fexp_pos m1 e1 loc_Exact Hm1 He1) as [H2 _].
  destruct (shr_fexp Float.prec Float.emax m1 e1 loc_Exact) as [r2 e2].
  cbn [fst] in H2.
  revert H2. destruct (shr_m r2) as [|q|q]; intros H2; simpl; try lia.
  by destruct (e2 <=? _).
Qed.

(** The float of a positive int is a positive float or the infinity. *)
Lemma of_Z_pos p :
  has_sign false (Float.of_Z (Z.pos p)) ∧
  Float.is_zero (Float.of_Z (Z.pos p)) = false.
Proof.
  unfold Float.of_Z, binary_normalize, binary_round.
  destruct (shl_align _ _ _) as [mz ez] eqn:E.
  split; [by apply binary_round_aux_sign|].
  apply binary_round_aux_nonzero; [done|].
  unfold shl_align in E.
  destruct (_ - 0) as [|d|d] in E; injection E as <- <-;
    try (unfold emin, Float.prec, Float.emax; lia).
  unfold fexp. apply Z.le_max_r.
Qed.

(** The sign of a product of floats, when it is not [0 * inf]. *)
Lemma mul_sign s t f g :
  has_sign s f → has_sign t g →
  Float.is_zero f && Float.is_infinity g = false →
  Float.is_infinity f && Float.is_zero g = false →
  has_sign (xorb s t) (Float.mul f g).
Proof.
  destruct f as [s1|s1| |s1 m1 e1], g as [s2|s2| |s2 m2 e2]; simpl;
    try done; try (by intros -> ->).
  intros -> -> _ _. by apply binary_round_aux_sign.
Qed.

End Rounding.

(** ** The operators *)

Section Operators.

(** A conversion to float raises nothing but [OverflowError], and nothing
    at all on a float. *)
Lemma to_float_Float f : to_float (Float f) = Return f.
Proof. reflexivity. Qed.

Lemma to_float_cases n :
  (∃ f, to_float n = Return f) ∨ to_float n = Raise OverflowError.
Proof.
  destruct n as [z|f]; simpl; [|eauto].
  destruct (Float.is_infinity _); eauto.
Qed.

Lemma arith_cases op_int op_float x y :
  (∃ v, arith op_int op_float x y = Return v) ∨
  arith op_int op_float x y = Raise OverflowError.
Proof.
  destruct x as [a|f], y as [b|g]; simpl; eauto.
  - destruct (Float.is_infinity (Float.of_Z a)); simpl; eauto.
  - destruct (Float.is_infinity (Float.of_Z b)); simpl; eauto.
Qed.

Lemma arith_Float op_int op_float f g :
  arith op_int op_float (Float f) (Float g) = Return (Float (op_float f g)).
Proof. reflexivity. Qed.



End Operators.

(** ** Material constructors *)

(** C7. Each subtype derives [unit_coverage] at construction as the
    product of its dimensions, computed with Python's [*]: for [Wallpaper]
    [roll_width * roll_length], for [Tile] and [Laminate] the area of a
    piece times the count.  Construction returns whenever the products do,
    as they always do on floats.  With the defaults a roll covers
    [0.53 * 10.05], which is the float [5.3265], and a box of 8 tiles
    covers [0.3 * 0.3 * 8], which is the float [0.72]; both are within
    [1e-6] of the decimal values. *)
Theorem unit_coverage_derivation :
  (∀ n p w l m, Wallpaper_init n p w l = Return m →
     num_mul w l = Return (unit_coverage m)) ∧
  (∀ n p k w h m, Tile_init n p k w h = Return m →
     ∃ tile_area, num_mul w h = Return tile_area ∧
                  num_mul tile_area k = Return (unit_coverage m)) ∧
  (∀ n p k w l m, Laminate_init n p k w l = Return m →
     ∃ plank_area, num_mul w l = Return plank_area ∧
                   num_mul plank_area k = Return (unit_coverage m)) ∧
  (∀ n p w l, ∃ m, Wallpaper_init n p (Float w) (Float l) = Return m ∧
     unit_coverage m = Float (Float.mul w l)) ∧
  (∀ n p k fk w h, to_float k = Return fk →
     ∃ m, Tile_init n p k (Float w) (Float h) = Return m ∧
     unit_coverage m = Float (Float.mul (Float.mul w h) fk)) ∧
  (∀ n p k fk w l, to_float k = Return fk →
     ∃ m, Laminate_init n p k (Float w) (Float l) = Return m ∧
     unit_coverage m = Float (Float.mul (Float.mul w l) fk)) ∧
  (∀ n p, ∃ m,
     Wallpaper_init n p Wallpaper_roll_width_default
                    Wallpaper_roll_length_default = Return m ∧
     unit_coverage m = dec 53265 4 ∧
     (Qabs (num_to_Q (unit_coverage m) - 5.3265) <= 1 / 1000000)%Q) ∧
  (∀ n p, ∃ m,
     Tile_init n p (Int 8) Tile_width_default Tile_height_default = Return m ∧
     unit_coverage m = dec 72 2 ∧
     (Qabs (num_to_Q (unit_coverage m) - 0.72) <= 1 / 1000000)%Q).
Proof.
  repeat split.
  - intros n p w l m. unfold Wallpaper_init.
    destruct (num_mul w l) as [c| |]; simpl; [|done..]. by intros [= <-].
  - intros n p k w h m. unfold Tile_init.
    destruct (num_mul w h) as [a| |]; simpl; [|done..].
    destruct (num_mul a k) as [c| |] eqn:E; simpl; [|done..].
    intros [= <-]. eauto.
  - intros n p k w l m. unfold Laminate_init.
    destruct (num_mul w l) as [a| |]; simpl; [|done..].
    destruct (num_mul a k) as [c| |] eqn:E; simpl; [|done..].
    intros [= <-]. eauto.
  - intros n p w l. eexists. split; reflexivity.
  - intros n p k fk w h Hk. unfold Tile_init.
    cbn [num_mul arith mbind outcome_bind to_float].
    destruct k as [z|g]; cbn [num_mul arith mbind outcome_bind to_float] in *.
    + rewrite Hk. eexists. split; reflexivity.
    + injection Hk as ->. eexists. split; reflexivity.
  - intros n p k fk w l Hk. unfold Laminate_init.
    cbn [num_mul arith mbind outcome_bind to_float].
    destruct k as [z|g]; cbn [num_mul arith mbind outcome_bind to_float] in *.
    + rewrite Hk. eexists. split; reflexivity.
    + injection Hk as ->. eexists. split; reflexivity.
  - intros n p. eexists. split; [reflexivity|]. split.
    + cbn [unit_coverage]. vm_compute. reflexivity.
    + vm_compute. discriminate.
  - intros n p. eexists. split; [reflexivity|]. split.
    + cbn [unit_coverage]. vm_compute. reflexivity.
    + vm_compute. discriminate.
Qed.

(** A product of positive dimensions is not always positive: the float
    product of two floats near [1e-200] underflows to [0.0]. *)
Lemma Wallpaper_coverage_underflow :
  let small := Float (S754_finite false 1 (-600)) in
  num_lt (Int 0) small ∧
  ∃ m, Wallpaper_init "w" (Int 1) small small = Return m ∧
       unit_coverage m = Float (S754_zero false) ∧
       ¬ num_lt (Int 0) (unit_coverage m).
Proof.
  split; [reflexivity|]. eexists. split; [reflexivity|].
  split; [vm_compute; reflexivity|]. vm_compute. discriminate.
Qed.

(** With the defaults a pack of 8 planks covers [0.193 * 1.380 * 8], which
    in floats is the float just below [2.13072]. *)
Lemma Laminate_coverage_defaults n p :
  ∃ m, Laminate_init n p (Int 8) Laminate_plank_width_default
                     Laminate_plank_length_default = Return m ∧
       num_lt (unit_coverage m) (dec 213072 5) ∧
       (Qabs (num_to_Q (unit_coverage m) - 2.13072) <= 1 / 1000000)%Q.
Proof.
  eexists. split; [reflexivity|]. split.
  - vm_compute. reflexivity.
  - vm_compute. discriminate.
Qed.

(** C9, as the specification states it, fails: the constructor stores what
    it is given, and [Material("paint", -1, 0)] has neither a positive
    coverage nor a price that is at least 0. *)
Lemma constructors_do_not_validate :
  let m := Material_init "paint" (Int (-1)) (Int 0) in
  ¬ num_lt (Int 0) (unit_coverage m) ∧ ¬ num_le (Int 0) (price_per_unit m).
Proof. split; vm_compute; discriminate. Qed.

(** C9, amended. The constructors store the price they are given and the
    coverage they are given ([Material]) or derive ([Wallpaper], [Tile],
    [Laminate]), without a check; a material built from a price that is at
    least 0 and a given or derived coverage above 0 satisfies the bounds. *)
Theorem material_bounds_from_arguments :
  (∀ n p c, num_le (Int 0) p → num_lt (Int 0) c →
     Material_invariant (Material_init n p c)) ∧
  (∀ n p w l m c, Wallpaper_init n p w l = Return m →
     num_mul w l = Return c →
     num_le (Int 0) p → num_lt (Int 0) c → Material_invariant m) ∧
  (∀ n p k w h m a c, Tile_init n p k w h = Return m →
     num_mul w h = Return a → num_mul a k = Return c →
     num_le (Int 0) p → num_lt (Int 0) c → Material_invariant m) ∧
  (∀ n p k w l m a c, Laminate_init n p k w l = Return m →
     num_mul w l = Return a → num_mul a k = Return c →
     num_le (Int 0) p → num_lt (Int 0) c → Material_invariant m).
Proof.
  repeat split; try done.
  - revert H. unfold Wallpaper_init. rewrite H0. simpl. by intros [= <-].
  - revert H. unfold Wallpaper_init. rewrite H0. simpl. by intros [= <-].
  - revert H. unfold Tile_init. rewrite H0. simpl. rewrite H1. simpl.
    by intros [= <-].
  - revert H. unfold Tile_init. rewrite H0. simpl. rewrite H1. simpl.
    by intros [= <-].
  - revert H. unfold Laminate_init. rewrite H0. simpl. rewrite H1. simpl.
    by intros [= <-].
  - revert H. unfold Laminate_init. rewrite H0. simpl. rewrite H1. simpl.
    by intros [= <-].
Qed.

(** The theorem at [Material("paint", 5, 1)] and at a box of 8 tiles of
    0.3 by 0.3. *)
Lemma material_bounds_from_arguments_witness :
  Material_invariant (Material_init "paint" (Int 5) (Int 1)) ∧
  ∃ m, Tile_init "tile" (Int 900) (Int 8) Tile_width_default
                 Tile_height_default = Return m ∧
       Material_invariant m.
Proof.
  destruct material_bounds_from_arguments as (Hbase & _ & Htile & _).
  split; [by apply Hbase|].
  eexists. split; [reflexivity|].
  eapply (Htile "tile" (Int 900) (Int 8) Tile_width_default
            Tile_height_default _ _ _ eq_refl); by vm_compute.
Defined.

(** ** RoomCalculator.calculate_wall_area *)

Section WallArea.
Variables perimeter height door_area window_area : number.

Lemma wall_area_bad_dimensions :
  num_le perimeter (Int 0) ∨ num_le height (Int 0) →
  RoomCalculator.calculate_wall_area perimeter height door_area window_area
  = Raise (ValueError Msg_perimeter_height_positive).
Proof.
  unfold num_le, RoomCalculator.calculate_wall_area.
  intros [-> | ->]; [reflexivity|]. by rewrite orb_true_r.
Qed.




End WallArea.




(** C6, as the specification states it, fails on its first example:
    [calculate_wall_area(10, 2.5, 5, 5)] does not return 20. *)
Lemma calculate_wall_area_example_not_20 :
  ¬ ∃ v, RoomCalculator.calculate_wall_area (Int 10) (dec 25 1) (Int 5) (Int 5)
         = Return v ∧ num_eq v (Int 20).
Proof.
  intros (v & Hv & H20).
  vm_compute in Hv. injection Hv as <-.
  vm_compute in H20. discriminate H20.
Qed.

(** C6, amended. [calculate_wall_area(10, 2.5, 5, 5)] returns
    [10*2.5 - 5 - 5 = 15.0], and [calculate_wall_area(10, 2.5, 12, 13)]
    raises [ValueError] because the remaining wall area, [0.0], is not
    positive. *)
Theorem calculate_wall_area_examples :
  (∃ v, RoomCalculator.calculate_wall_area (Int 10) (dec 25 1) (Int 5) (Int 5)
        = Return v ∧ v = Float (Float.of_Z 15) ∧ num_eq v (Int 15)) ∧
  RoomCalculator.calculate_wall_area (Int 10) (dec 25 1) (Int 12) (Int 13)
  = Raise (ValueError Msg_wall_area_positive) ∧
  (∃ v0, RoomCalculator.wall_expression (Int 10) (dec 25 1) (Int 12) (Int 13)
         = Return v0 ∧ num_le v0 (Int 0)).
Proof.
  split; [|split].
  - eexists. split; [vm_compute; reflexivity|]. split; reflexivity.
  - vm_compute. reflexivity.
  - eexists. split; [vm_compute; reflexivity|]. reflexivity.
Qed.

(** ** MaterialCalculator.calculate *)

Section Calculate.

Lemma true_div_cases x y :
  (∃ f, true_div x y = Return (Float f)) ∨
  true_div x y = Raise ZeroDivisionError ∨
  true_div x y = Raise OverflowError.
Proof.
  assert (∀ fx fy : float,
            (∃ f, (if Float.is_zero fy then Raise ZeroDivisionError
                   else Return (Float (Float.div fx fy))) = Return (Float f)) ∨
            (if Float.is_zero fy then Raise ZeroDivisionError
             else Return (Float (Float.div fx fy))) = Raise ZeroDivisionError ∨
            (if Float.is_zero fy then @Raise number ZeroDivisionError
             else Return (Float (Float.div fx fy))) = Raise OverflowError) as H.
  { intros fx fy. destruct (Float.is_zero fy); eauto. }
  destruct x as [a|f], y as [b|g]; simpl.
  - destruct (b =? 0); [by right; left|].
    destruct (Float.is_infinity _); eauto.
  - destruct (Float.is_infinity (Float.of_Z a)); simpl; [by right; right|].
    apply H.
  - destruct (Float.is_infinity (Float.of_Z b)); simpl; [by right; right|].
    apply H.
  - apply H.
Qed.

Lemma units_quotient_cases r a c :
  (∃ f, MaterialCalculator.units_quotient r a c = Return (Float f)) ∨
  MaterialCalculator.units_quotient r a c = Raise ZeroDivisionError ∨
  MaterialCalculator.units_quotient r a c = Raise OverflowError.
Proof.
  unfold MaterialCalculator.units_quotient.
  destruct (true_div_cases r (Int 100)) as [[t ->]|[-> | ->]];
    cbn [mbind outcome_bind]; auto.
  destruct (arith_cases Z.add Float.add (Int 1) (Float t)) as [[s Hs]|Hs];
    unfold num_add; rewrite Hs; cbn [mbind outcome_bind]; auto.
  destruct (arith_cases Z.mul Float.mul a s) as [[v Hv]|Hv];
    unfold num_mul; rewrite Hv; cbn [mbind outcome_bind]; auto.
  apply true_div_cases.
Qed.

Lemma math_ceil_cases q :
  (∃ u, math_ceil q = Return u) ∨
  (math_ceil q = Raise (ValueError Msg_ceil_nan) ∧ is_NaN q = true) ∨
  math_ceil q = Raise OverflowError.
Proof.
  unfold math_ceil, is_NaN. destruct (num_value q); eauto.
Qed.

Lemma math_ceil_not_NaN q u : math_ceil q = Return u → is_NaN q = false.
Proof. unfold math_ceil, is_NaN. by destruct (num_value q). Qed.

Lemma math_ceil_NaN q :
  is_NaN q = true → math_ceil q = Raise (ValueError Msg_ceil_nan).
Proof. unfold math_ceil, is_NaN. by destruct (num_value q). Qed.

Lemma num_mul_Int_cases u p :
  (∃ c, num_mul (Int u) p = Return c) ∨
  num_mul (Int u) p = Raise OverflowError.
Proof. apply arith_cases. Qed.

Lemma calculate_result_Return r m a res :
  MaterialCalculator.calculate_result r m a = Return res ↔
  ∃ q u c,
    MaterialCalculator.units_quotient r a (unit_coverage m) = Return q ∧
    math_ceil q = Return u ∧
    num_mul (Int u) (price_per_unit m) = Return c ∧
    res = mkCalculationResult m a u c r.
Proof.
  unfold MaterialCalculator.calculate_result. split.
  - destruct (MaterialCalculator.units_quotient _ _ _) as [q| |];
      cbn [mbind outcome_bind]; [|done..].
    destruct (math_ceil q) as [u| |] eqn:Hu; cbn [mbind outcome_bind];
      [|done..].
    destruct (num_mul _ _) as [c| |] eqn:Hc; cbn [mbind outcome_bind];
      [|done..].
    intros [= <-]. by eexists _, _, _.
  - intros (q & u & c & -> & Hu & Hc & ->). cbn [mbind outcome_bind].
    rewrite Hu. cbn [mbind outcome_bind]. rewrite Hc. reflexivity.
Qed.

Lemma calculate_result_cases r m a :
  (∃ res, MaterialCalculator.calculate_result r m a = Return res) ∨
  (∃ e, MaterialCalculator.calculate_result r m a = Raise e ∧
        arithmetic_error e).
Proof.
  unfold MaterialCalculator.calculate_result, arithmetic_error.
  destruct (units_quotient_cases r a (unit_coverage m)) as [[q ->]|[-> | ->]];
    cbn [mbind outcome_bind]; [|right; eauto..].
  destruct (math_ceil_cases (Float q)) as [[u ->]|[[-> _]| ->]];
    cbn [mbind outcome_bind]; [|right; eauto 6..].
  destruct (num_mul_Int_cases u (price_per_unit m)) as [[c ->]| ->];
    cbn [mbind outcome_bind]; [left; eauto|right; eauto 6].
Qed.

Lemma calculate_result_ValueError r m a :
  is_ValueError (MaterialCalculator.calculate_result r m a) ↔
  ∃ q, MaterialCalculator.units_quotient r a (unit_coverage m) = Return q ∧
       is_NaN q = true.
Proof.
  unfold MaterialCalculator.calculate_result. split.
  - destruct (units_quotient_cases r a (unit_coverage m)) as [[q ->]|[-> | ->]];
      cbn [mbind outcome_bind]; [|done..].
    destruct (math_ceil_cases (Float q)) as [[u ->]|[[-> Hq]| ->]];
      cbn [mbind outcome_bind]; [|eauto|done].
    by destruct (num_mul_Int_cases u (price_per_unit m)) as [[c ->]| ->].
  - intros (q & -> & Hq). cbn [mbind outcome_bind].
    by rewrite (math_ceil_NaN q Hq).
Qed.

(** The cost of at least one unit at a price that is not negative is not
    negative. *)
Lemma num_le_0_Float g :
  num_le (Int 0) (Float g) ↔ Float.is_zero g = true ∨ has_sign false g.
Proof.
  unfold num_le, num_leb, num_compare.
  destruct g as [s|s| |s m e]; cbn [num_value compare_values];
    change (inject_Z 0) with 0%Q.
  - simpl. tauto.
  - destruct s; simpl; split; try done; try (intros [?|?]; done); auto.
  - simpl. split; [done|]. by intros [?|?].
  - destruct s.
    + pose proof (proj1 (Qgt_alt _ _) (to_Q_finite_neg m e)) as H.
      rewrite H. simpl. split; [done|]. by intros [?|?].
    + pose proof (proj1 (Qlt_alt _ _) (to_Q_finite_pos m e)) as H.
      rewrite H. simpl. split; auto.
Qed.

Lemma cost_not_negative u p c :
  1 <= u → num_le (Int 0) p → num_mul (Int u) p = Return c →
  num_le (Int 0) c.
Proof.
  intros Hu Hp. destruct p as [z|g].
  - simpl. intros [= <-]. revert Hp. unfold num_le, num_leb, num_compare. simpl.
    change (0 # 1)%Q with (inject_Z 0). rewrite !Qcompare_inject_Z.
    destruct (Z.compare_spec 0 z), (Z.compare_spec 0 (u * z)); try done; nia.
  - destruct u as [|k|k]; try lia.
    unfold num_mul, arith, to_float.
    destruct (of_Z_pos k) as [Hs Hz].
    destruct (Float.is_infinity (Float.of_Z (Z.pos k))) eqn:Hi; [done|].
    cbn [mbind outcome_bind]. intros [= <-].
    apply num_le_0_Float in Hp. apply num_le_0_Float.
    destruct (Float.is_zero (Float.mul (Float.of_Z (Z.pos k)) g)) eqn:E;
      [by left|right].
    destruct Hp as [Hp|Hp].
    + destruct g as [s| | |]; try done. revert E.
      by destruct (Float.of_Z (Z.pos k)).
    + apply (mul_sign false false);
        [exact Hs|exact Hp| |].
      * change (Float.is_zero (Float.of_Z (Z.pos k)) && Float.is_infinity g
                = false). by rewrite Hz.
      * change (Float.is_infinity (Float.of_Z (Z.pos k)) && Float.is_zero g
                = false). by rewrite Hi.
Qed.

Section Calls.
Variable w : world.

Lemma calculate_area_not_positive obj a :
  num_le a (Int 0) →
  MaterialCalculator.calculate obj a w
  = (Raise (ValueError Msg_area_positive), w).
Proof. unfold num_le, MaterialCalculator.calculate. by intros ->. Qed.

Lemma calculate_not_a_material obj a :
  num_leb a (Int 0) = false → isinstance_Material obj = false →
  MaterialCalculator.calculate obj a w
  = (Raise (ValueError Msg_material_instance), w).
Proof.
  unfold MaterialCalculator.calculate. intros ->. by destruct obj.
Qed.

Lemma calculate_Material m a :
  num_leb a (Int 0) = false →
  MaterialCalculator.calculate (PyMaterial m) a w
  = match MaterialCalculator.calculate_result (_reserve_percent (self w)) m a
    with
    | Return res =>
        (Return res,
         mkWorld (self w)
                 (list_append (_calculations_history (self w)) res (heap w)))
    | Raise e => (Raise e, w)
    | Unmodelled => (Unmodelled, w)
    end.
Proof.
  unfold MaterialCalculator.calculate. intros ->.
  unfold mbind, M_bind, get_self, lift_outcome, modify_heap, mret, M_ret.
  by destruct (MaterialCalculator.calculate_result _ _ _).
Qed.

End Calls.

End Calculate.

(** C1, as the specification states it, fails: on a new calculator
    (reserve 10) the float [100 * (1 + 10 / 100)] is above 110, so for a
    material that covers 1 per unit [calculate] returns 111 units, where
    the exact formula gives 110. *)
Lemma calculate_rounds_up_to_111 :
  let w := MaterialCalculator.init MaterialCalculator.reserve_percent_default ∅ in
  ∃ res w',
    MaterialCalculator.calculate
      (PyMaterial (Material_init "paint" (Int 1) (Int 1))) (Int 100) w
    = (Return res, w') ∧
    units_needed res = 111 ∧
    Qceiling (100 * (1 + 10 / 100) / 1)%Q = 110.
Proof.
  cbv zeta. eexists _, _. split; [vm_compute; reflexivity|].
  split; reflexivity.
Qed.

(** Nor is a unit always needed: an area of [2^-1000] on a material that
    covers [2^100] per unit gives a quotient that underflows to [0.0], and
    0 units. *)
Lemma calculate_units_zero_by_underflow :
  let w := MaterialCalculator.init MaterialCalculator.reserve_percent_default ∅ in
  let area := Float (S754_finite false 1 (-1000)) in
  let m := Material_init "paint" (Int 1) (Float (S754_finite false 1 100)) in
  num_lt (Int 0) area ∧ Material_invariant m ∧
  ∃ res w',
    MaterialCalculator.calculate (PyMaterial m) area w = (Return res, w') ∧
    units_needed res = 0.
Proof.
  cbv zeta. split; [reflexivity|]. split; [split; reflexivity|].
  eexists _, _. split; [vm_compute; reflexivity|]. reflexivity.
Qed.

(** And a result is not always returned: the product of the area [1e308]
    with the factor of a reserve of 100 is the infinity, and [math.ceil]
    raises [OverflowError]. *)
Lemma calculate_overflow :
  let w := MaterialCalculator.init (Int 100) ∅ in
  let area := Float (Float.of_Z (10 ^ 308)) in
  let m := Material_init "paint" (Int 1) (Int 1) in
  num_lt (Int 0) area ∧ Material_invariant m ∧
  MaterialCalculator.calculate (PyMaterial m) area w = (Raise OverflowError, w).
Proof.
  cbv zeta. split; [reflexivity|]. split; [split; reflexivity|].
  vm_compute. reflexivity.
Qed.

(** C1, amended. When [calculate(m, area)] returns, the quotient
    [area * (1 + reserve / 100) / unit_coverage], evaluated with Python's
    operators, is a finite float [q]; [units_needed] is its ceiling, the
    integer with [units_needed - 1 < q <= units_needed]; [total_cost] is
    [units_needed * price_per_unit], again with Python's [*];
    [units_needed >= 1] exactly when [q > 0]; and [total_cost >= 0] when
    [units_needed >= 1] and the price is at least 0.  For an area that is
    not [<= 0] the call returns exactly when the quotient, its ceiling and
    the cost can be computed, and raises what they raise otherwise:
    [ZeroDivisionError], [OverflowError], or [ValueError] from [math.ceil]
    on NaN. *)
Theorem calculate_units_and_cost (m : Material) (a : number) (w : world) :
  let r := _reserve_percent (self w) in
  (∀ res w',
     MaterialCalculator.calculate (PyMaterial m) a w = (Return res, w') →
     ∃ q,
       MaterialCalculator.units_quotient r a (unit_coverage m) = Return q ∧
       is_finite q ∧
       (inject_Z (units_needed res - 1) < num_to_Q q
        <= inject_Z (units_needed res))%Q ∧
       num_mul (Int (units_needed res)) (price_per_unit m)
       = Return (total_cost res) ∧
       (1 <= units_needed res ↔ num_lt (Int 0) q) ∧
       (1 <= units_needed res → num_le (Int 0) (price_per_unit m) →
        num_le (Int 0) (total_cost res)) ∧
       material res = m ∧ area res = a ∧ reserve_percent res = r) ∧
  (num_leb a (Int 0) = false →
   ∀ q u c,
     MaterialCalculator.units_quotient r a (unit_coverage m) = Return q →
     math_ceil q = Return u →
     num_mul (Int u) (price_per_unit m) = Return c →
     ∃ w', MaterialCalculator.calculate (PyMaterial m) a w
           = (Return (mkCalculationResult m a u c r), w')) ∧
  (num_leb a (Int 0) = false →
   (∃ res w', MaterialCalculator.calculate (PyMaterial m) a w
              = (Return res, w')) ∨
   (∃ e, MaterialCalculator.calculate (PyMaterial m) a w = (Raise e, w) ∧
         arithmetic_error e)).
Proof.
  intros r. split; [|split].
  - intros res w' Hcall.
    destruct (num_leb a (Int 0)) eqn:Ha.
    { by rewrite calculate_area_not_positive in Hcall. }
    rewrite calculate_Material in Hcall by exact Ha. fold r in Hcall.
    destruct (MaterialCalculator.calculate_result r m a) as [res'| |] eqn:E;
      [|done..].
    injection Hcall as -> _.
    apply calculate_result_Return in E as (q & u & c & Hq & Hu & Hc & ->).
    exists q. cbn [units_needed total_cost material area reserve_percent].
    split; [exact Hq|].
    split; [by apply math_ceil_Return in Hu as [? _]|].
    split; [by apply math_ceil_bounds|].
    split; [exact Hc|].
    split; [by apply math_ceil_positive|].
    split; [|done].
    intros H1 Hp. by apply (cost_not_negative u (price_per_unit m)).
  - intros Ha q u c Hq Hu Hc.
    rewrite calculate_Material by exact Ha. fold r.
    assert (MaterialCalculator.calculate_result r m a
            = Return (mkCalculationResult m a u c r)) as ->.
    { apply calculate_result_Return. by eexists _, _, _. }
    eauto.
  - intros Ha. rewrite calculate_Material by exact Ha. fold r.
    destruct (calculate_result_cases r m a) as [[res ->]|(e & -> & He)];
      [left|right]; eauto.
Qed.

(** The theorem at [calculate(Material("paint", 1, 1), 100)] on a new
    calculator: 111 units, for a quotient above 110, at a cost of 111. *)
Lemma calculate_units_and_cost_witness :
  let w := MaterialCalculator.init MaterialCalculator.reserve_percent_default ∅ in
  let m := Material_init "paint" (Int 1) (Int 1) in
  ∃ res w' q,
    MaterialCalculator.calculate (PyMaterial m) (Int 100) w = (Return res, w') ∧
    MaterialCalculator.units_quotient (Int 10) (Int 100) (Int 1) = Return q ∧
    (110 < num_to_Q q)%Q ∧
    units_needed res = 111 ∧ total_cost res = Int 111.
Proof.
  cbv zeta.
  set (w := MaterialCalculator.init MaterialCalculator.reserve_percent_default ∅).
  set (m := Material_init "paint" (Int 1) (Int 1)).
  destruct (calculate_units_and_cost m (Int 100) w) as (Hret & Hcall & _).
  assert (MaterialCalculator.units_quotient (_reserve_percent (self w))
            (Int 100) (unit_coverage m)
          = Return (Float (S754_finite false 7740561859543041 (-46)))) as Hq
    by (vm_compute; reflexivity).
  destruct (Hcall eq_refl _ 111 (Int 111) Hq) as [w' Hw'];
    [vm_compute; reflexivity|reflexivity|].
  eexists _, w', _. split; [exact Hw'|]. split; [exact Hq|].
  split; [vm_compute; reflexivity|]. split; reflexivity.
Defined.

(** C2, as the specification states it, fails: [nan <= 0] is false and the
    material is a [Material], yet [calculate] raises [ValueError], from
    [math.ceil] on the NaN quotient. *)
Lemma calculate_nan_area_raises_ValueError :
  let w := MaterialCalculator.init MaterialCalculator.reserve_percent_default ∅ in
  let m := Material_init "paint" (Int 1) (Int 1) in
  ¬ num_le (Float Float.nan) (Int 0) ∧
  isinstance_Material (PyMaterial m) = true ∧
  MaterialCalculator.calculate (PyMaterial m) (Float Float.nan) w
  = (Raise (ValueError Msg_ceil_nan), w).
Proof.
  cbv zeta. split; [vm_compute; discriminate|]. split; [reflexivity|].
  vm_compute. reflexivity.
Qed.

(** C2, amended. [calculate] raises [ValueError] exactly when the area is
    [<= 0], or the material argument is not a [Material], or the quotient
    [area * (1 + reserve / 100) / unit_coverage] is NaN (from [math.ceil]);
    so it does for the areas 0 and -5.  A call that raises it leaves the
    receiver and the store, hence the history, as they were: no result was
    made. *)
Theorem calculate_value_error_iff (obj : pyobject) (a : number) (w : world) :
  let out := MaterialCalculator.calculate obj a w in
  (is_ValueError (fst out) ↔
     num_le a (Int 0) ∨ isinstance_Material obj = false ∨
     ∃ m q, obj = PyMaterial m ∧
            MaterialCalculator.units_quotient
              (_reserve_percent (self w)) a (unit_coverage m) = Return q ∧
            is_NaN q = true) ∧
  (is_ValueError (fst out) → snd out = w ∧ history (snd out) = history w) ∧
  is_ValueError (fst (MaterialCalculator.calculate obj (Int 0) w)) ∧
  is_ValueError (fst (MaterialCalculator.calculate obj (Int (-5)) w)).
Proof.
  cbv zeta.
  assert (∀ x, num_le x (Int 0) →
            is_ValueError (fst (MaterialCalculator.calculate obj x w))) as Hneg.
  { intros x Hx. by rewrite calculate_area_not_positive. }
  split; [|split; [|split]]; [| |by apply Hneg..].
  - destruct (num_leb a (Int 0)) eqn:Ha.
    { rewrite calculate_area_not_positive by exact Ha. simpl. unfold num_le.
      tauto. }
    unfold num_le. rewrite Ha.
    destruct obj as [m| |n|s];
      try (rewrite calculate_not_a_material by done; simpl; tauto).
    rewrite calculate_Material by exact Ha.
    pose proof (calculate_result_ValueError (_reserve_percent (self w)) m a)
      as Hiff.
    destruct (MaterialCalculator.calculate_result _ m a) as [res|e|];
      cbn [fst]; rewrite Hiff; simpl; split.
    + intros (q & Hq & Hn). right. right. by exists m, q.
    + intros [?|[?|(m' & q & [= <-] & Hq & Hn)]]; try done. by exists q.
    + intros (q & Hq & Hn). right. right. by exists m, q.
    + intros [?|[?|(m' & q & [= <-] & Hq & Hn)]]; try done. by exists q.
    + intros (q & Hq & Hn). right. right. by exists m, q.
    + intros [?|[?|(m' & q & [= <-] & Hq & Hn)]]; try done. by exists q.
  - destruct (num_leb a (Int 0)) eqn:Ha.
    { by rewrite calculate_area_not_positive by exact Ha. }
    destruct obj as [m| |n|s];
      try (by rewrite calculate_not_a_material by done).
    rewrite calculate_Material by exact Ha.
    by destruct (MaterialCalculator.calculate_result _ m a) as [res|e|].
Qed.

(** The theorem at [calculate(None, 3)] on a new calculator: [ValueError],
    and the world is the one before the call. *)
Lemma calculate_value_error_iff_witness :
  let w := MaterialCalculator.init MaterialCalculator.reserve_percent_default ∅ in
  is_ValueError (fst (MaterialCalculator.calculate PyNone (Int 3) w)) ∧
  snd (MaterialCalculator.calculate PyNone (Int 3) w) = w.
Proof.
  cbv zeta.
  destruct (calculate_value_error_iff PyNone (Int 3)
              (MaterialCalculator.init
                 MaterialCalculator.reserve_percent_default ∅))
    as (Hiff & Hsame & _).
  assert (is_ValueError
            (fst (MaterialCalculator.calculate PyNone (Int 3)
                    (MaterialCalculator.init
                       MaterialCalculator.reserve_percent_default ∅))))
    as Herr.
  { apply Hiff. right. left. reflexivity. }
  split; [exact Herr|]. by apply Hsame.
Defined.

Section ZeroCoverage.
Variables (r a c : number).
Hypothesis Hc : num_eq c (Int 0).




End ZeroCoverage.




(** ** The stable sort *)

Section OrderFacts.

Lemma num_ltb_leb x y : num_ltb x y = true → num_leb x y = true.
Proof. rewrite num_leb_ltb_eqb. by intros ->. Qed.

Lemma num_eqb_leb x y :
  num_eqb x y = true → num_leb x y = true ∧ num_leb y x = true.
Proof.
  unfold num_eqb, num_leb. rewrite (num_compare_antisym x y).
  by destruct (num_compare x y) as [[]|].
Qed.

Lemma num_leb_antisym x y :
  num_leb x y = true → num_leb y x = true → num_eqb x y = true.
Proof.
  unfold num_eqb, num_leb. rewrite (num_compare_antisym x y).
  by destruct (num_compare x y) as [[]|].
Qed.

Lemma num_eqb_refl x : is_NaN x = false → num_eqb x x = true.
Proof.
  unfold is_NaN, num_eqb, num_compare.
  destruct (num_value x) as [| |q|]; simpl; try done.
  intros _. by rewrite (proj1 (Qeq_alt q q) (Qeq_refl q)).
Qed.

Lemma num_eqb_sym x y : num_eqb x y = num_eqb y x.
Proof.
  unfold num_eqb. rewrite (num_compare_antisym x y).
  by destruct (num_compare x y) as [[]|].
Qed.

Lemma num_eqb_trans x y z :
  num_eqb x y = true → num_eqb y z = true → num_eqb x z = true.
Proof.
  intros [H1 H2]%num_eqb_leb [H3 H4]%num_eqb_leb.
  apply num_leb_antisym; by eapply num_leb_trans.
Qed.

End OrderFacts.

Section SortFacts.
Context {A : Type} (key : A → number).

Lemma has_NaN_key_false xs : has_NaN_key key xs = false ↔ no_NaN_key key xs.
Proof.
  unfold has_NaN_key, no_NaN_key. rewrite List.Forall_forall. split.
  - intros H x Hx. destruct (is_NaN (key x)) eqn:E; [|done].
    assert (existsb (λ x, is_NaN (key x)) xs = true) as H'
      by (apply existsb_exists; eauto).
    by rewrite H in H'.
  - intros H. destruct (existsb _ xs) eqn:E; [|done].
    apply existsb_exists in E as (x & Hx & Hn). by rewrite (H x Hx) in Hn.
Qed.

Lemma insert_by_key_perm (x : A) (xs : list A) :
  Permutation (x :: xs) (insert_by_key key x xs).
Proof.
  induction xs as [|y ys IH]; cbn; [reflexivity|].
  destruct (num_ltb (key y) (key x)); [|reflexivity].
  rewrite perm_swap. by apply perm_skip.
Qed.

Lemma sort_by_key_perm (xs : list A) : Permutation xs (sort_by_key key xs).
Proof.
  induction xs as [|x xs IH]; cbn; [reflexivity|].
  rewrite <- insert_by_key_perm. by apply perm_skip.
Qed.

Lemma insert_by_key_sorted (x : A) (xs : list A) :
  is_NaN (key x) = false → no_NaN_key key xs →
  StronglySorted (key_le key) xs →
  StronglySorted (key_le key) (insert_by_key key x xs).
Proof.
  intros Hx Hxs Hs. induction Hs as [|y ys Hys IH Hy]; cbn.
  - repeat constructor.
  - apply List.Forall_cons_iff in Hxs as [Hy' Hys'].
    destruct (num_ltb (key y) (key x)) eqn:E.
    + constructor; [by apply IH|].
      rewrite <- insert_by_key_perm.
      constructor; [|exact Hy]. by apply num_ltb_leb.
    + assert (key_le key x y) as Hxy by by apply num_leb_total.
      constructor; [by constructor|].
      constructor; [exact Hxy|].
      eapply List.Forall_impl; [|exact Hy].
      intros z Hz. unfold key_le in *. by eapply num_leb_trans.
Qed.

Lemma sort_by_key_sorted (xs : list A) :
  no_NaN_key key xs → StronglySorted (key_le key) (sort_by_key key xs).
Proof.
  induction xs as [|x xs IH]; cbn; [constructor|].
  intros [Hx Hxs]%List.Forall_cons_iff.
  apply insert_by_key_sorted; [exact Hx| |by apply IH].
  unfold no_NaN_key. by rewrite <- sort_by_key_perm.
Qed.

(** Stability: the elements of any one key keep their order. *)
Lemma insert_by_key_stable (k : number) (x : A) (xs : list A) :
  List.filter (same_key key k) (insert_by_key key x xs)
  = List.filter (same_key key k) (x :: xs).
Proof.
  induction xs as [|y ys IH]; [reflexivity|].
  cbn [insert_by_key].
  destruct (num_ltb (key y) (key x)) eqn:E; [|reflexivity].
  cbn [List.filter] in *. rewrite IH.
  destruct (same_key key k x) eqn:Ex; [|reflexivity].
  destruct (same_key key k y) eqn:Ey; [|reflexivity].
  unfold same_key in Ex, Ey.
  apply num_eqb_leb in Ex as [Hxk Hkx]. apply num_eqb_leb in Ey as [Hyk Hky].
  assert (num_leb (key x) (key y) = true) as H by by eapply num_leb_trans.
  apply num_leb_ltb_false in H. by rewrite H in E.
Qed.

Lemma sort_by_key_stable (k : number) (xs : list A) :
  List.filter (same_key key k) (sort_by_key key xs)
  = List.filter (same_key key k) xs.
Proof.
  induction xs as [|x xs IH]; [reflexivity|].
  cbn [sort_by_key]. rewrite insert_by_key_stable.
  cbn [List.filter]. by rewrite IH.
Qed.

End SortFacts.

(** ** Any stable sort returns the same list

    A list without NaN keys is determined by being sorted and holding, for
    every key, the elements of that key in a given order; so the list that
    [list.sort] leaves is the one [sort_by_key] computes, whatever
    algorithm the interpreter runs. *)

Section SortUnique.
Context {A : Type} (key : A → number).

Lemma same_key_compat (k k' : number) (x : A) :
  num_eqb k k' = true → same_key key k x = same_key key k' x.
Proof.
  intros E. unfold same_key.
  destruct (num_eqb (key x) k) eqn:E1; destruct (num_eqb (key x) k') eqn:E2;
    try reflexivity.
  - by rewrite (num_eqb_trans _ _ _ E1 E) in E2.
  - rewrite num_eqb_sym in E.
    by rewrite (num_eqb_trans _ _ _ E2 E) in E1.
Qed.

Lemma filter_cons_true (f : A → bool) (x : A) (xs : list A) :
  f x = true → List.filter f (x :: xs) = x :: List.filter f xs.
Proof. intros H. cbn. by rewrite H. Qed.

Lemma filter_same_key_head (x y : A) (ys zs : list A) :
  is_NaN (key x) = false →
  StronglySorted (key_le key) (y :: ys) →
  List.filter (same_key key (key x)) (y :: ys) = x :: zs →
  num_leb (key y) (key x) = true.
Proof.
  intros Hx Hsorted Hfilter.
  assert (In x (List.filter (same_key key (key x)) (y :: ys))) as Hin.
  { rewrite Hfilter. by left. }
  apply filter_In in Hin as [Hin _].
  cbn in Hin. destruct Hin as [->|Hin].
  - by apply num_eqb_leb, num_eqb_refl.
  - apply StronglySorted_inv in Hsorted as [_ Hall].
    rewrite List.Forall_forall in Hall. by apply Hall.
Qed.

Lemma sorted_stable_unique (xs ys : list A) :
  no_NaN_key key xs → no_NaN_key key ys →
  StronglySorted (key_le key) xs → StronglySorted (key_le key) ys →
  (∀ k, List.filter (same_key key k) xs = List.filter (same_key key k) ys) →
  xs = ys.
Proof.
  intros Hnx Hny Hxs. revert ys Hny.
  induction Hxs as [|x xs Hxs IH Hx]; intros ys Hny Hys Hstable.
  - destruct ys as [|y ys]; [reflexivity|].
    apply List.Forall_cons_iff in Hny as [Hy _].
    specialize (Hstable (key y)). cbn in Hstable.
    unfold same_key at 1 in Hstable.
    by rewrite (num_eqb_refl _ Hy) in Hstable.
  - apply List.Forall_cons_iff in Hnx as [Hnx Hnxs].
    destruct ys as [|y ys].
    { specialize (Hstable (key x)). cbn in Hstable.
      unfold same_key at 1 in Hstable.
      by rewrite (num_eqb_refl _ Hnx) in Hstable. }
    apply List.Forall_cons_iff in Hny as [Hny Hnys].
    assert (same_key key (key x) x = true) as Hxx by by apply num_eqb_refl.
    assert (same_key key (key y) y = true) as Hyy by by apply num_eqb_refl.
    assert (num_leb (key y) (key x) = true) as Hyx.
    { pose proof (Hstable (key x)) as H.
      rewrite (filter_cons_true _ x xs Hxx) in H. symmetry in H.
      exact (filter_same_key_head x y ys _ Hnx Hys H). }
    assert (num_leb (key x) (key y) = true) as Hxy.
    { pose proof (Hstable (key y)) as H.
      rewrite (filter_cons_true _ y ys Hyy) in H.
      exact (filter_same_key_head y x xs _ Hny (SSorted_cons x Hxs Hx) H). }
    assert (num_eqb (key x) (key y) = true) as E by by apply num_leb_antisym.
    assert (x = y) as ->.
    { pose proof (Hstable (key x)) as H. cbn [List.filter] in H.
      rewrite Hxx in H.
      rewrite (same_key_compat (key x) (key y) y) in H by exact E.
      rewrite Hyy in H. by injection H. }
    f_equal.
    apply IH; [exact Hnxs|exact Hnys|by apply StronglySorted_inv in Hys as [? _]|].
    intros k. specialize (Hstable k). cbn [List.filter] in Hstable.
    destruct (same_key key k y); [by injection Hstable|exact Hstable].
Qed.

Lemma stable_sort_unique (xs out : list A) :
  no_NaN_key key xs → Permutation xs out →
  StronglySorted (key_le key) out →
  (∀ k, List.filter (same_key key k) out = List.filter (same_key key k) xs) →
  out = sort_by_key key xs.
Proof.
  intros Hn Hperm Hsorted Hstable.
  apply sorted_stable_unique.
  - unfold no_NaN_key. by rewrite <- Hperm.
  - unfold no_NaN_key. by rewrite <- sort_by_key_perm.
  - exact Hsorted.
  - by apply sort_by_key_sorted.
  - intros k. by rewrite Hstable, sort_by_key_stable.
Qed.

End SortUnique.

(** ** The store *)

Section Store.
Implicit Types (σ : store) (l : loc) (xs : list CalculationResult).

Lemma list_contents_insert_eq σ l xs : list_contents (<[l := xs]> σ) l = xs.
Proof. unfold list_contents. by rewrite lookup_insert_eq. Qed.

Lemma list_contents_insert_ne σ l l' xs :
  l ≠ l' → list_contents (<[l := xs]> σ) l' = list_contents σ l'.
Proof. intros Hne. unfold list_contents. by rewrite lookup_insert_ne. Qed.

Lemma list_contents_update_eq σ l f :
  list_contents (list_update l f σ) l = f (list_contents σ l).
Proof. apply list_contents_insert_eq. Qed.

Lemma list_contents_update_ne σ l l' f :
  l ≠ l' → list_contents (list_update l f σ) l' = list_contents σ l'.
Proof. apply list_contents_insert_ne. Qed.

Lemma list_update_insert_ne σ l l' f xs :
  l ≠ l' → list_update l f (<[l' := xs]> σ) = <[l' := xs]> (list_update l f σ).
Proof.
  intros Hne. unfold list_update.
  rewrite list_contents_insert_ne by congruence.
  by apply insert_insert_ne.
Qed.

Lemma list_append_insert_eq σ l xs x :
  list_append l x (<[l := xs]> σ) = <[l := xs ++ [x]]> σ.
Proof.
  unfold list_append, list_update.
  by rewrite list_contents_insert_eq, insert_insert_eq.
Qed.

Lemma fresh_not_history w :
  history_allocated w → fresh (dom (heap w)) ≠ _calculations_history (self w).
Proof. intros Hw E. apply (is_fresh (dom (heap w))). by rewrite E. Qed.

End Store.

(** ** What [calculate] does to the world *)

Section CalculateEffect.
Import MaterialCalculator.

(** The outcome of [calculate] depends on the receiver, not on the store;
    a call that does not return leaves the world as it was, and no call
    leaves the model. *)
Lemma calculate_cases obj a w :
  (∃ m r, obj = PyMaterial m ∧ num_leb a (Int 0) = false ∧
          calculate_result (_reserve_percent (self w)) m a = Return r ∧
          ∀ σ, calculate obj a (mkWorld (self w) σ)
               = (Return r,
                  mkWorld (self w)
                          (list_append (_calculations_history (self w)) r σ))) ∨
  (∃ e, ∀ σ, calculate obj a (mkWorld (self w) σ)
             = (Raise e, mkWorld (self w) σ)).
Proof.
  destruct (num_leb a (Int 0)) eqn:Ha.
  { right. eexists. intros σ. by apply calculate_area_not_positive. }
  destruct obj as [m| |n|s];
    try (right; eexists; intros σ; by apply calculate_not_a_material).
  destruct (calculate_result_cases (_reserve_percent (self w)) m a)
    as [[r Hr]|(e & He & _)].
  - left. exists m, r. repeat split; try done.
    intros σ. rewrite calculate_Material by exact Ha. cbn [self heap].
    by rewrite Hr.
  - right. exists e. intros σ. rewrite calculate_Material by exact Ha.
    cbn [self heap]. by rewrite He.
Qed.

Lemma world_eta w : mkWorld (self w) (heap w) = w.
Proof. by destruct w. Qed.

Lemma calculate_Return_inv obj a w r w1 :
  calculate obj a w = (Return r, w1) →
  ∃ m, obj = PyMaterial m ∧ num_leb a (Int 0) = false ∧
       calculate_result (_reserve_percent (self w)) m a = Return r ∧
       material r = m ∧ area r = a ∧
       reserve_percent r = _reserve_percent (self w) ∧
       w1 = mkWorld (self w)
                    (list_append (_calculations_history (self w)) r (heap w)).
Proof.
  intros Hcall.
  destruct (calculate_cases obj a w) as [(m & r' & -> & Ha & Hr & H)|[e H]];
    specialize (H (heap w)); rewrite world_eta in H; rewrite H in Hcall;
    [|done].
  injection Hcall as <- <-. exists m.
  pose proof Hr as Hr'.
  apply calculate_result_Return in Hr' as (q & u & c & _ & _ & _ & ->).
  by repeat split.
Qed.

Lemma calculate_not_Return obj a w o w1 :
  calculate obj a w = (o, w1) → (∀ r, o ≠ Return r) →
  w1 = w ∧ ∃ e, o = Raise e.
Proof.
  intros Hcall Hno.
  destruct (calculate_cases obj a w) as [(m & r' & -> & Ha & Hr & H)|[e H]];
    specialize (H (heap w)); rewrite world_eta in H; rewrite H in Hcall;
    injection Hcall as <- <-.
  - by destruct (Hno r').
  - eauto.
Qed.

Lemma calculate_self obj a w : self (snd (calculate obj a w)) = self w.
Proof.
  destruct (calculate_cases obj a w) as [(m & r' & -> & Ha & Hr & H)|[e H]];
    specialize (H (heap w)); rewrite world_eta in H; by rewrite H.
Qed.

(** A list object that is not the history is carried through a call
    unchanged, whatever it holds. *)
Lemma calculate_frame obj a w r w1 l xs :
  l ≠ _calculations_history (self w) →
  calculate obj a w = (Return r, w1) →
  calculate obj a (mkWorld (self w) (<[l := xs]> (heap w)))
  = (Return r, mkWorld (self w1) (<[l := xs]> (heap w1))).
Proof.
  intros Hne Hcall.
  destruct (calculate_cases obj a w) as [(m & r' & -> & Ha & Hr & H)|[e H]].
  - rewrite H. specialize (H (heap w)). rewrite world_eta in H.
    rewrite H in Hcall. injection Hcall as <- <-. cbn [self heap].
    f_equal. f_equal. unfold list_append.
    by rewrite list_update_insert_ne by congruence.
  - specialize (H (heap w)). rewrite world_eta in H. by rewrite H in Hcall.
Qed.

Lemma calculate_frame_Raise obj a w e w1 σ :
  calculate obj a w = (Raise e, w1) →
  calculate obj a (mkWorld (self w) σ) = (Raise e, mkWorld (self w) σ).
Proof.
  intros Hcall.
  destruct (calculate_cases obj a w) as [(m & r' & -> & Ha & Hr & H)|[e' H]].
  - specialize (H (heap w)). rewrite world_eta in H. by rewrite H in Hcall.
  - rewrite H. specialize (H (heap w)). rewrite world_eta in H.
    rewrite H in Hcall. by injection Hcall as ->.
Qed.

Lemma calculate_each_effect a ms w rs w1 :
  calculate_each a ms w rs w1 →
  self w1 = self w ∧ length rs = length ms ∧
  history w1 = history w ++ rs ∧
  (∀ l, l ≠ _calculations_history (self w) →
        heap w1 !! l = heap w !! l) ∧
  (history_allocated w → history_allocated w1).
Proof.
  induction 1 as [w|m ms w r w1 rs w2 Hcall Hrest IH].
  - rewrite app_nil_r. repeat split; tauto.
  - destruct IH as (Hself & Hlen & Hhist & Hframe & Halloc).
    apply calculate_Return_inv in Hcall as
        (m' & -> & Ha & Hc & _ & _ & _ & ->).
    cbn in *. repeat split.
    + exact Hself.
    + by rewrite Hlen.
    + rewrite Hhist. unfold history at 1. cbn.
      unfold list_append. rewrite list_contents_update_eq.
      by rewrite <- app_assoc.
    + intros l Hne. rewrite Hframe by exact Hne.
      unfold list_append, list_update. by rewrite lookup_insert_ne.
    + intros Hw. apply Halloc. unfold history_allocated in *. cbn.
      unfold list_append, list_update. rewrite dom_insert_L. set_solver.
Qed.

(** The calls of the loop either all return, or there is a first one that
    raises. *)
Lemma calculate_each_or_raise a ms w :
  (∃ rs w1, calculate_each a ms w rs w1) ∨
  (∃ ms1 m ms2 rs w1 e,
     ms = ms1 ++ m :: ms2 ∧ calculate_each a ms1 w rs w1 ∧
     calculate m a w1 = (Raise e, w1)).
Proof.
  revert w. induction ms as [|m ms IH]; intros w.
  { left. exists [], w. constructor. }
  destruct (calculate m a w) as [o w1] eqn:Hcall.
  destruct o as [r|e|].
  - destruct (IH w1) as [(rs & w2 & H)|(ms1 & m' & ms2 & rs & w2 & e & -> & H & Hf)].
    + left. exists (r :: rs), w2. by econstructor.
    + right. exists (m :: ms1), m', ms2, (r :: rs), w2, e.
      split; [done|]. split; [by econstructor|done].
  - right. exists [], m, ms, [], w, e.
    destruct (calculate_not_Return _ _ _ _ _ Hcall) as [-> _]; [done|].
    split; [done|]. split; [constructor|done].
  - by destruct (calculate_not_Return _ _ _ _ _ Hcall) as [_ [e ?]].
Qed.

(** The loop of [compare_materials], with [results] bound to the list
    object [l] holding [acc] when the loop starts. *)
Lemma compare_materials_loop a l ms w rs w1 :
  calculate_each a ms w rs w1 →
  ∀ acc, l ≠ _calculations_history (self w) →
  for_each ms (λ material,
      result ← calculate material a;
      modify_heap (list_append l result))
    (mkWorld (self w) (<[l := acc]> (heap w)))
  = (Return tt, mkWorld (self w1) (<[l := acc ++ rs]> (heap w1))).
Proof.
  induction 1 as [w|m ms w r w1 rs w2 Hcall Hrest IH]; intros acc Hne.
  - by rewrite app_nil_r.
  - cbn [for_each]. unfold mbind at 1, M_bind at 1. unfold mbind at 1, M_bind at 1.
    rewrite (calculate_frame _ _ _ _ _ _ _ Hne Hcall).
    unfold modify_heap at 1. cbn [self heap].
    rewrite list_append_insert_eq.
    assert (self w1 = self w) as Hself.
    { by rewrite <- (calculate_self m a w), Hcall. }
    rewrite IH by (by rewrite Hself).
    by rewrite <- app_assoc.
Qed.

Lemma compare_materials_loop_raises a l ms1 m ms2 w rs w1 e :
  calculate_each a ms1 w rs w1 →
  calculate m a w1 = (Raise e, w1) →
  ∀ acc, l ≠ _calculations_history (self w) →
  for_each (ms1 ++ m :: ms2) (λ material,
      result ← calculate material a;
      modify_heap (list_append l result))
    (mkWorld (self w) (<[l := acc]> (heap w)))
  = (Raise e, mkWorld (self w1) (<[l := acc ++ rs]> (heap w1))).
Proof.
  intros Heach Hfail.
  induction Heach as [w|m0 ms0 w r0 w01 rs0 w02 Hcall Hrest IH];
    intros acc Hne.
  - cbn [app for_each]. unfold mbind at 1, M_bind at 1.
    unfold mbind at 1, M_bind at 1.
    rewrite (calculate_frame_Raise _ _ _ _ _ _ Hfail). by rewrite app_nil_r.
  - cbn [app for_each]. unfold mbind at 1, M_bind at 1.
    unfold mbind at 1, M_bind at 1.
    rewrite (calculate_frame _ _ _ _ _ _ _ Hne Hcall).
    unfold modify_heap at 1. cbn [self heap].
    rewrite list_append_insert_eq.
    assert (self w01 = self w) as Hself0.
    { by rewrite <- (calculate_self m0 a w), Hcall. }
    rewrite IH by (done || by rewrite Hself0).
    by rewrite <- app_assoc.
Qed.

End CalculateEffect.

(** ** MaterialCalculator.compare_materials *)

Section CompareMaterials.
Import MaterialCalculator.

Lemma compare_materials_empty a w :
  compare_materials [] a w = (Raise (ValueError Msg_materials_empty), w).
Proof. reflexivity. Qed.

Lemma compare_materials_nonempty a ms w :
  ms ≠ [] →
  compare_materials ms a w
  = (results ← alloc_list [];
     for_each ms (λ material,
       result ← calculate material a;
       modify_heap (list_append results result));;
     list_sort results total_cost;;
     mret results) w.
Proof. intros Hms. by destruct ms. Qed.

Lemma compare_materials_returns a ms w rs w1 :
  ms ≠ [] → history_allocated w → calculate_each a ms w rs w1 →
  no_NaN_key total_cost rs →
  let l := fresh (dom (heap w)) in
  compare_materials ms a w
  = (Return l,
     mkWorld (self w1) (<[l := sort_by_key total_cost rs]> (heap w1))).
Proof.
  intros Hms Hw Heach Hnan l.
  pose proof (fresh_not_history w Hw) as Hne. fold l in Hne.
  rewrite compare_materials_nonempty by exact Hms.
  unfold mbind at 1, M_bind at 1. unfold alloc_list, list_new. fold l.
  unfold mbind at 1, M_bind at 1.
  rewrite (compare_materials_loop a l _ w rs w1 Heach [] Hne).
  unfold list_sort, mbind, M_bind, get_heap, modify_heap, mret, M_ret.
  cbn [self heap app]. rewrite list_contents_insert_eq.
  rewrite (proj2 (has_NaN_key_false total_cost rs) Hnan).
  unfold list_update. cbn [self heap].
  by rewrite list_contents_insert_eq, insert_insert_eq.
Qed.

(** With a NaN among the costs the sort is where the model stops. *)
Lemma compare_materials_NaN_cost a ms w rs w1 :
  ms ≠ [] → history_allocated w → calculate_each a ms w rs w1 →
  has_NaN_key total_cost rs = true →
  fst (compare_materials ms a w) = Unmodelled.
Proof.
  intros Hms Hw Heach Hnan. set (l := fresh (dom (heap w))).
  pose proof (fresh_not_history w Hw) as Hne. fold l in Hne.
  rewrite compare_materials_nonempty by exact Hms.
  unfold mbind at 1, M_bind at 1. unfold alloc_list, list_new. fold l.
  unfold mbind at 1, M_bind at 1.
  rewrite (compare_materials_loop a l _ w rs w1 Heach [] Hne).
  unfold list_sort, mbind, M_bind, get_heap, modify_heap, mret, M_ret.
  cbn [self heap app]. rewrite list_contents_insert_eq.
  by rewrite Hnan.
Qed.

(** A call that raises stops the loop: the exception of the first failing
    [calculate] is the exception of [compare_materials], and the results of
    the calls before it stay in the history. *)
Lemma compare_materials_raises a ms1 m ms2 w rs w1 e w2 :
  history_allocated w → calculate_each a ms1 w rs w1 →
  calculate m a w1 = (Raise e, w2) →
  ∃ w', compare_materials (ms1 ++ m :: ms2) a w = (Raise e, w') ∧
        self w' = self w ∧ history w' = history w ++ rs.
Proof.
  intros Hw Heach Hfail.
  set (l := fresh (dom (heap w))).
  pose proof (fresh_not_history w Hw) as Hne. fold l in Hne.
  destruct (calculate_each_effect _ _ _ _ _ Heach) as (Hself & _ & Hhist & _).
  assert (w2 = w1) as ->.
  { by destruct (calculate_not_Return _ _ _ _ _ Hfail) as [-> _]. }
  eexists. split.
  - rewrite compare_materials_nonempty by (by destruct ms1).
    unfold mbind at 1, M_bind at 1. unfold alloc_list, list_new. fold l.
    unfold mbind at 1, M_bind at 1.
    by rewrite (compare_materials_loop_raises a l ms1 m ms2 w rs w1 e
                  Heach Hfail [] Hne).
  - cbn. split; [exact Hself|].
    unfold history. cbn. rewrite Hself.
    rewrite list_contents_insert_ne by exact Hne.
    unfold history in Hhist. by rewrite Hself in Hhist.
Qed.

End CompareMaterials.

(** C3, as the specification states it, fails: on a new calculator
    [compare_materials([m1, m2], 0)] returns nothing and appends nothing;
    the first call to [calculate] raises [ValueError] and that is the end
    of it. *)
Lemma compare_materials_stops_at_first_failure :
  let w := MaterialCalculator.init MaterialCalculator.reserve_percent_default ∅ in
  let m1 := Material_init "paint" (Int 5) (Int 1) in
  let m2 := Material_init "tile" (Int 7) (Int 2) in
  ∃ w',
    MaterialCalculator.compare_materials [PyMaterial m1; PyMaterial m2] (Int 0) w
    = (Raise (ValueError Msg_area_positive), w') ∧
    history w' = [].
Proof.
  cbv zeta.
  destruct (compare_materials_raises (Int 0) []
              (PyMaterial (Material_init "paint" (Int 5) (Int 1)))
              [PyMaterial (Material_init "tile" (Int 7) (Int 2))]
              (MaterialCalculator.init
                 MaterialCalculator.reserve_percent_default ∅) [] _
              (ValueError Msg_area_positive) _
              ltac:(vm_compute; set_solver)
              (calculate_each_nil _ _)
              (calculate_area_not_positive _
                 (PyMaterial (Material_init "paint" (Int 5) (Int 1)))
                 (Int 0) eq_refl))
    as (w' & Hcall & _ & Hhist).
  exists w'. split; [exact Hcall|]. by rewrite Hhist.
Qed.

(** C3, amended. [compare_materials] raises [ValueError] on an empty
    list.  On a non-empty list it calls [calculate] once per material in
    the order of the list until a call raises, and the calls either all
    return or there is a first that raises.  If one raises, its exception
    is the exception of [compare_materials], and the history has grown by
    the results of the calls before it.  If all return, the history has
    grown by their results in call order, one per material, and, no cost
    being NaN, the list returned is a new list that holds the same results
    sorted by non-decreasing [total_cost], results of equal cost in the
    order of the input. *)
Theorem compare_materials_contract :
  (∀ a w,
     MaterialCalculator.compare_materials [] a w
     = (Raise (ValueError Msg_materials_empty), w)) ∧
  (∀ ms a w rs w1,
     ms ≠ [] → history_allocated w → calculate_each a ms w rs w1 →
     no_NaN_key total_cost rs →
     ∃ l w',
       MaterialCalculator.compare_materials ms a w = (Return l, w') ∧
       (l ∉ dom (heap w)) ∧
       length rs = length ms ∧
       history w' = history w ++ rs ∧
       StronglySorted (key_le total_cost) (list_contents (heap w') l) ∧
       Permutation rs (list_contents (heap w') l) ∧
       ∀ k, List.filter (same_key total_cost k) (list_contents (heap w') l)
            = List.filter (same_key total_cost k) rs) ∧
  (∀ ms1 m ms2 a w rs w1 e,
     history_allocated w → calculate_each a ms1 w rs w1 →
     MaterialCalculator.calculate m a w1 = (Raise e, w1) →
     ∃ w', MaterialCalculator.compare_materials (ms1 ++ m :: ms2) a w
           = (Raise e, w') ∧
           history w' = history w ++ rs) ∧
  (∀ ms a w,
     (∃ rs w1, calculate_each a ms w rs w1) ∨
     (∃ ms1 m ms2 rs w1 e,
        ms = ms1 ++ m :: ms2 ∧ calculate_each a ms1 w rs w1 ∧
        MaterialCalculator.calculate m a w1 = (Raise e, w1))).
Proof.
  split; [exact compare_materials_empty|]. split; [|split].
  - intros ms a w rs w1 Hms Hw Heach Hnan.
    destruct (calculate_each_effect _ _ _ _ _ Heach)
      as (Hself & Hlen & Hhist & _ & _).
    pose proof (fresh_not_history w Hw) as Hne.
    eexists _, _.
    split; [exact (compare_materials_returns a ms w rs w1 Hms Hw Heach Hnan)|].
    split; [apply is_fresh|]. split; [exact Hlen|].
    split.
    { unfold history. cbn [self heap]. rewrite Hself.
      rewrite list_contents_insert_ne by exact Hne.
      unfold history in Hhist. by rewrite Hself in Hhist. }
    cbn [heap]. rewrite list_contents_insert_eq.
    split; [by apply sort_by_key_sorted|].
    split; [apply sort_by_key_perm|].
    intros k. apply sort_by_key_stable.
  - intros ms1 m ms2 a w rs w1 e Hw Heach Hfail.
    destruct (compare_materials_raises a ms1 m ms2 w rs w1 e w1 Hw Heach Hfail)
      as (w' & Hcall & _ & Hhist).
    by exists w'.
  - intros ms a w. apply calculate_each_or_raise.
Qed.

(** The theorem at three materials costing 6000, 130 and 130 for 23.17
    square metres: the two of cost 130 come first, in input order. *)
Lemma compare_materials_contract_witness :
  let ms := [Material_init "roll" (Int 1200) (dec 53265 4);
             Material_init "paint A" (Int 5) (Int 1);
             Material_init "paint B" (Int 5) (Int 1)] in
  let w := MaterialCalculator.init MaterialCalculator.reserve_percent_default ∅ in
  ∃ l w',
    MaterialCalculator.compare_materials (map PyMaterial ms) (dec 2317 2) w
    = (Return l, w') ∧
    length (history w') = 3%nat ∧
    StronglySorted (key_le total_cost) (list_contents (heap w') l) ∧
    map (λ r, name (material r)) (list_contents (heap w') l)
    = ["paint A"; "paint B"; "roll"].
Proof.
  intros ms w.
  destruct compare_materials_contract as (_ & Hsome & _).
  assert (∃ rs w1, calculate_each (dec 2317 2) (map PyMaterial ms) w rs w1 ∧
                   no_NaN_key total_cost rs) as (rs & w1 & Heach & Hnan).
  { eexists _, _. split.
    - econstructor; [vm_compute; reflexivity|].
      econstructor; [vm_compute; reflexivity|].
      econstructor; [vm_compute; reflexivity|]. constructor.
    - repeat constructor. }
  destruct (Hsome (map PyMaterial ms) (dec 2317 2) w rs w1)
    as (l & w' & Hcall & _ & Hlen & Hhist & Hsorted & _ & _).
  { discriminate. }
  { vm_compute. set_solver. }
  { exact Heach. }
  { exact Hnan. }
  exists l, w'. split; [exact Hcall|].
  split; [rewrite Hhist, length_app, Hlen; reflexivity|].
  split; [exact Hsorted|].
  vm_compute in Hcall. injection Hcall as <- <-.
  vm_compute. reflexivity.
Defined.

(** ** What every operation keeps *)

Section Preservation.
Import MaterialCalculator.

Lemma for_each_invariant {A : Type} (P : world → Prop) (body : A → M unit) :
  (∀ x w, P w → P (snd (body x w))) →
  ∀ xs w, P w → P (snd (for_each xs body w)).
Proof.
  intros Hbody xs. induction xs as [|x xs IH]; intros w Hw; [exact Hw|].
  cbn [for_each]. unfold mbind, M_bind.
  specialize (Hbody x w Hw).
  destruct (body x w) as [[[]|e|] w']; cbn in Hbody |- *; try done.
  by apply IH.
Qed.

Lemma reserve_percent_set_rejects value w :
  num_lt value (Int 0) ∨ num_lt (Int 100) value →
  reserve_percent_set value w = (Raise (ValueError Msg_reserve_percent_range), w).
Proof.
  unfold num_lt, reserve_percent_set. intros [-> | ->]; [done|].
  by rewrite orb_true_r.
Qed.

Lemma reserve_percent_set_stores value w :
  num_ltb value (Int 0) = false → num_ltb (Int 100) value = false →
  reserve_percent_set value w
  = (Return tt,
     mkWorld (mkMaterialCalculator value (_calculations_history (self w)))
             (heap w)).
Proof. unfold reserve_percent_set. by intros -> ->. Qed.

Lemma reserve_percent_set_accepts value w :
  num_le (Int 0) value → num_le value (Int 100) →
  reserve_percent_set value w
  = (Return tt,
     mkWorld (mkMaterialCalculator value (_calculations_history (self w)))
             (heap w)).
Proof.
  intros H0 H100. apply reserve_percent_set_stores; by apply num_leb_ltb_false.
Qed.

Lemma call_keeps_refl w : call_keeps w w.
Proof. unfold call_keeps. auto. Qed.

Lemma call_keeps_trans w1 w2 w3 :
  call_keeps w1 w2 → call_keeps w2 w3 → call_keeps w1 w3.
Proof.
  unfold call_keeps. intros (Hr1 & Hh1 & Hd1) (Hr2 & Hh2 & Hd2).
  split; [tauto|]. split; [congruence|set_solver].
Qed.

Lemma call_keeps_heap c σ σ' :
  dom σ ⊆ dom σ' → call_keeps (mkWorld c σ) (mkWorld c σ').
Proof. unfold call_keeps. cbn. auto. Qed.

Lemma dom_list_update (σ : store) l f : dom σ ⊆ dom (list_update l f σ).
Proof. unfold list_update. rewrite dom_insert_L. set_solver. Qed.

Lemma calculate_keeps obj a w : call_keeps w (snd (calculate obj a w)).
Proof.
  destruct (calculate_cases obj a w) as [(m & r' & -> & Ha & Hr & H)|[e H]];
    specialize (H (heap w)); rewrite world_eta in H; rewrite H; cbn [snd].
  - destruct w as [c σ]. apply call_keeps_heap, dom_list_update.
  - apply call_keeps_refl.
Qed.

Lemma compare_materials_body_keeps l a w0 material w :
  call_keeps w0 w →
  call_keeps w0
    (snd ((result ← calculate material a;
           modify_heap (list_append l result)) w)).
Proof.
  intros Hw. unfold mbind, M_bind.
  pose proof (calculate_keeps material a w) as Hk.
  destruct (calculate material a w) as [[r|e|] w1]; cbn in Hk |- *.
  - eapply call_keeps_trans; [exact Hw|].
    eapply call_keeps_trans; [exact Hk|].
    destruct w1 as [c1 σ1]. apply call_keeps_heap, dom_list_update.
  - by eapply call_keeps_trans.
  - by eapply call_keeps_trans.
Qed.

Lemma list_sort_keeps l key w : call_keeps w (snd (list_sort l key w)).
Proof.
  unfold list_sort, mbind, M_bind, get_heap, lift_outcome, modify_heap.
  destruct (has_NaN_key _ _); cbn [snd]; [apply call_keeps_refl|].
  destruct w as [c σ]. apply call_keeps_heap, dom_list_update.
Qed.

Lemma compare_materials_keeps ms a w :
  call_keeps w (snd (compare_materials ms a w)).
Proof.
  destruct ms as [|m ms]; [apply call_keeps_refl|].
  rewrite compare_materials_nonempty by discriminate.
  unfold mbind at 1, M_bind at 1. unfold alloc_list, list_new.
  set (l := fresh (dom (heap w))).
  set (w0 := mkWorld (self w) (<[l := []]> (heap w))).
  assert (call_keeps w w0) as H0.
  { destruct w as [c σ]. apply call_keeps_heap. cbn.
    rewrite dom_insert_L. set_solver. }
  unfold mbind at 1, M_bind at 1.
  pose proof (for_each_invariant (call_keeps w) _
                (compare_materials_body_keeps l a w) (m :: ms) w0 H0) as Hloop.
  cbv beta in Hloop.
  destruct (for_each (m :: ms) _ w0) as [[[]|e|] w1]; cbn in Hloop |- *;
    [|exact Hloop..].
  unfold mbind, M_bind.
  pose proof (list_sort_keeps l total_cost w1) as Hsort.
  destruct (list_sort l total_cost w1) as [[[]|e|] w2]; cbn in Hsort |- *;
    by eapply call_keeps_trans.
Qed.

Lemma run_call_keeps c w : call_keeps w (run_call c w).
Proof.
  destruct c as [value|obj a| | |ms a]; cbn [run_call].
  - destruct (num_ltb value (Int 0)) eqn:H0;
      [rewrite reserve_percent_set_rejects by (by left); apply call_keeps_refl|].
    destruct (num_ltb (Int 100) value) eqn:H100;
      [rewrite reserve_percent_set_rejects by (by right); apply call_keeps_refl|].
    rewrite reserve_percent_set_stores by assumption.
    unfold call_keeps, reserve_accepted. cbn. auto.
  - apply calculate_keeps.
  - destruct w as [c σ]. apply call_keeps_heap. cbn.
    rewrite dom_insert_L. set_solver.
  - destruct w as [c σ]. apply call_keeps_heap, dom_list_update.
  - apply compare_materials_keeps.
Qed.

Lemma run_calls_keeps cs w : call_keeps w (run_calls cs w).
Proof.
  revert w. induction cs as [|c cs IH]; intros w; [apply call_keeps_refl|].
  cbn. eapply call_keeps_trans; [apply run_call_keeps|apply IH].
Qed.

Lemma reserve_in_range_accepted c : reserve_in_range c → reserve_accepted c.
Proof.
  unfold reserve_in_range, reserve_accepted.
  intros [H0 H100]. split; by apply num_leb_ltb_false.
Qed.

(** An accepted reserve is in range unless it is NaN. *)
Lemma reserve_accepted_in_range c :
  reserve_accepted c → is_NaN (_reserve_percent c) = false →
  reserve_in_range c.
Proof.
  unfold reserve_in_range, reserve_accepted.
  intros [H0 H100] Hn. split; by apply num_leb_total.
Qed.

Lemma init_history_allocated r σ : history_allocated (init r σ).
Proof.
  unfold history_allocated, init, list_new. cbn.
  rewrite dom_insert_L. set_solver.
Qed.

Lemma history_allocated_after_calls r σ cs :
  history_allocated (run_calls cs (init r σ)).
Proof.
  destruct (run_calls_keeps cs (init r σ)) as (_ & Hh & Hd).
  unfold history_allocated. rewrite Hh. apply Hd, init_history_allocated.
Qed.

End Preservation.

(** ** The reserve percent *)

(** C4 fails at construction: [MaterialCalculator(reserve_percent=r)] stores
    any [r], so a calculator built with 150 or with -1 is outside [0..100],
    although the setter, called with the same 150, raises [ValueError]. *)
Theorem init_stores_reserve_unchecked :
  (∀ r σ, _reserve_percent (self (MaterialCalculator.init r σ)) = r) ∧
  ¬ reserve_in_range (self (MaterialCalculator.init (Int 150) ∅)) ∧
  ¬ reserve_in_range (self (MaterialCalculator.init (Int (-1)) ∅)) ∧
  (∀ w, MaterialCalculator.reserve_percent_set (Int 150) w
        = (Raise (ValueError Msg_reserve_percent_range), w)).
Proof.
  split; [reflexivity|]. split; [|split].
  - intros [_ H]. vm_compute in H. discriminate H.
  - intros [H _]. vm_compute in H. discriminate H.
  - intros w. apply reserve_percent_set_rejects. right. reflexivity.
Qed.

(** The setter has a second way past its check: [nan < 0] and [nan > 100]
    are both false, so NaN is stored, and the reserve is then not in
    [0..100]. *)
Lemma reserve_percent_set_stores_NaN w :
  ∃ w', MaterialCalculator.reserve_percent_set (Float Float.nan) w
        = (Return tt, w') ∧
        _reserve_percent (self w') = Float Float.nan ∧
        ¬ reserve_in_range (self w').
Proof.
  eexists. split; [by apply reserve_percent_set_stores|].
  split; [reflexivity|]. intros [H _]. discriminate H.
Qed.

(** ** The history *)

Section History.
Import MaterialCalculator.

Lemma get_history_eq w :
  get_history w
  = (Return (fresh (dom (heap w))),
     mkWorld (self w) (<[fresh (dom (heap w)) := history w]> (heap w))).
Proof. reflexivity. Qed.

Lemma clear_history_eq w :
  clear_history w
  = (Return tt,
     mkWorld (self w) (list_clear (_calculations_history (self w)) (heap w))).
Proof. reflexivity. Qed.

End History.

(** C8. [get_history] returns a new list object holding the elements of the
    history: whatever the caller then does to that object, in whatever
    store, the history list is untouched.  [clear_history] empties the
    history, so a [get_history] right after it returns an empty list; and a
    list returned earlier keeps its elements through the clear. *)
Theorem get_history_is_a_copy (w : world) :
  history_allocated w →
  let h := _calculations_history (self w) in
  ∃ l w1,
    MaterialCalculator.get_history w = (Return l, w1) ∧
    (l ∉ dom (heap w)) ∧ l ≠ h ∧
    self w1 = self w ∧
    list_contents (heap w1) l = history w ∧
    history w1 = history w ∧
    (∀ (σ : store) f, list_contents (list_update l f σ) h = list_contents σ h) ∧
    (∀ w2, ∃ w3 l4 w4,
       MaterialCalculator.clear_history w2 = (Return tt, w3) ∧
       history w3 = [] ∧
       MaterialCalculator.get_history w3 = (Return l4, w4) ∧
       list_contents (heap w4) l4 = []) ∧
    (∀ w2, _calculations_history (self w2) = h →
       list_contents (heap (snd (MaterialCalculator.clear_history w2))) l
       = list_contents (heap w2) l).
Proof.
  intros Hw h.
  pose proof (fresh_not_history w Hw) as Hne. fold h in Hne.
  eexists _, _. split; [apply get_history_eq|].
  split; [apply is_fresh|]. split; [exact Hne|]. split; [reflexivity|].
  cbn [heap self]. split; [apply list_contents_insert_eq|].
  split; [unfold history; cbn [heap self];
          by rewrite list_contents_insert_ne by exact Hne|].
  split; [intros σ f; by apply list_contents_update_ne|].
  split.
  - intros w2. eexists _, _, _. split; [apply clear_history_eq|].
    assert (history (mkWorld (self w2)
                       (list_clear (_calculations_history (self w2)) (heap w2)))
            = []) as Hempty.
    { unfold history, list_clear. cbn [heap self].
      apply list_contents_update_eq. }
    split; [exact Hempty|]. split; [apply get_history_eq|].
    cbn [heap]. rewrite list_contents_insert_eq. exact Hempty.
  - intros w2 Hh. rewrite clear_history_eq. cbn [snd heap].
    unfold list_clear. rewrite Hh. apply list_contents_update_ne. congruence.
Qed.

(** The theorem on a calculator that has made one calculation: the copy
    holds one result, and after the caller empties the copy the history
    still holds it. *)
Lemma get_history_is_a_copy_witness :
  let w :=
    snd (MaterialCalculator.calculate
           (PyMaterial (Material_init "paint" (Int 5) (Int 1))) (Int 3)
           (MaterialCalculator.init
              MaterialCalculator.reserve_percent_default ∅)) in
  ∃ l w1,
    MaterialCalculator.get_history w = (Return l, w1) ∧
    length (list_contents (heap w1) l) = 1%nat ∧
    length (list_contents (list_clear l (heap w1))
                          (_calculations_history (self w))) = 1%nat.
Proof.
  intros w.
  destruct (get_history_is_a_copy w) as
      (l & w1 & Hcall & _ & _ & Hself & Hcopy & Hhist & Hmut & _ & _).
  { vm_compute. set_solver. }
  exists l, w1. split; [exact Hcall|].
  split; [rewrite Hcopy; vm_compute; reflexivity|].
  unfold list_clear. rewrite Hmut.
  change (length (history (mkWorld (self w) (heap w1))) = 1%nat).
  rewrite <- Hself. destruct w1 as [c1 σ1]. cbn [self heap].
  change (length (history (mkWorld c1 σ1)) = 1%nat).
  rewrite Hhist. vm_compute. reflexivity.
Defined.

(** * Further properties *)

(** ** MaterialCalculator: what a calculation leaves behind *)

Section CalculateMore.
Import MaterialCalculator.

(** X1. A call of [calculate] that returns puts its result at the end of
    the history and does nothing else: the receiver keeps its reserve and
    its history reference, no list object is created or removed, every
    other list keeps its elements; and the list that the next
    [get_history] returns ends with that result. *)
Theorem calculate_appends_result obj a w res w1 :
  history_allocated w →
  calculate obj a w = (Return res, w1) →
  self w1 = self w ∧
  history w1 = history w ++ [res] ∧
  dom (heap w1) = dom (heap w) ∧
  (∀ l, l ≠ _calculations_history (self w) →
        list_contents (heap w1) l = list_contents (heap w) l) ∧
  ∃ l w2, get_history w1 = (Return l, w2) ∧
          list_contents (heap w2) l = history w ++ [res].
Proof.
  intros Hw Hcall.
  apply calculate_Return_inv in Hcall as (m & _ & _ & _ & _ & _ & _ & ->).
  assert (history (mkWorld (self w)
                     (list_append (_calculations_history (self w)) res (heap w)))
          = history w ++ [res]) as Hhist.
  { unfold history, list_append. cbn [self heap].
    apply list_contents_update_eq. }
  split; [reflexivity|]. split; [exact Hhist|]. split; [|split].
  - cbn [heap]. unfold list_append, list_update.
    apply dom_insert_lookup_L. by apply elem_of_dom.
  - intros l Hl. cbn [heap]. unfold list_append.
    apply list_contents_update_ne. congruence.
  - eexists _, _. split; [apply get_history_eq|].
    cbn [heap]. rewrite list_contents_insert_eq. exact Hhist.
Qed.

(** The theorem at the first calculation of a new calculator. *)
Lemma calculate_appends_result_witness :
  ∃ res w1,
    calculate (PyMaterial (Material_init "paint" (Int 5) (Int 1))) (Int 3)
              (init reserve_percent_default ∅)
    = (Return res, w1) ∧
    history w1 = [res] ∧ units_needed res = 4.
Proof.
  destruct (calculate (PyMaterial (Material_init "paint" (Int 5) (Int 1)))
              (Int 3) (init reserve_percent_default ∅))
    as [[res|e|] w1] eqn:Hcall; [|vm_compute in Hcall; discriminate Hcall..].
  destruct (calculate_appends_result _ _ _ _ _
              (init_history_allocated reserve_percent_default ∅) Hcall)
    as (_ & Hhist & _).
  exists res, w1. split; [reflexivity|]. split; [exact Hhist|].
  vm_compute in Hcall. injection Hcall as Hres Hw1. by rewrite <- Hres.
Defined.

End CalculateMore.

(** ** MaterialCalculator: the reserve, the history, the comparison *)

Section CalculatorMore.
Import MaterialCalculator.

(** X4. The [reserve_percent] setter raises [ValueError] for every value
    below 0 or above 100 and then changes nothing; for every value from 0
    to 100 it returns and changes the reserve to that value and nothing
    else, so that the next calculation is made with the new reserve and
    recorded after the earlier ones. *)
Theorem reserve_percent_set_contract (value : number) (w : world) :
  (num_lt value (Int 0) ∨ num_lt (Int 100) value →
   reserve_percent_set value w
   = (Raise (ValueError Msg_reserve_percent_range), w)) ∧
  (num_le (Int 0) value → num_le value (Int 100) →
   ∃ w1,
     reserve_percent_set value w = (Return tt, w1) ∧
     _reserve_percent (self w1) = value ∧
     _calculations_history (self w1) = _calculations_history (self w) ∧
     heap w1 = heap w ∧
     reserve_percent_get w1 = (Return value, w1) ∧
     ∀ obj a res w2,
       calculate obj a w1 = (Return res, w2) →
       reserve_percent res = value ∧ history w2 = history w ++ [res]).
Proof.
  split; [apply reserve_percent_set_rejects|].
  intros H0 H100. eexists.
  split; [by apply reserve_percent_set_accepts|].
  do 4 (split; [reflexivity|]).
  intros obj a res w2 Hcall.
  apply calculate_Return_inv in Hcall as (m & _ & _ & _ & _ & _ & Hr & ->).
  split; [exact Hr|].
  unfold history, list_append. cbn [self heap _calculations_history].
  apply list_contents_update_eq.
Qed.

(** The theorem at the values 101 and 25 on a new calculator. *)
Lemma reserve_percent_set_contract_witness :
  reserve_percent_set (Int 101) (init reserve_percent_default ∅)
  = (Raise (ValueError Msg_reserve_percent_range),
     init reserve_percent_default ∅) ∧
  ∃ w1, reserve_percent_set (Int 25) (init reserve_percent_default ∅)
        = (Return tt, w1) ∧
        _reserve_percent (self w1) = Int 25.
Proof.
  split.
  - apply (reserve_percent_set_contract (Int 101)
             (init reserve_percent_default ∅)). right. reflexivity.
  - destruct (reserve_percent_set_contract (Int 25)
                (init reserve_percent_default ∅)) as [_ H].
    destruct H as (w1 & Hset & Hr & _); [reflexivity..|].
    exists w1. split; [exact Hset|exact Hr].
Defined.

(** X5. No sequence of public calls takes a calculator out of order: a
    reserve that is neither below 0 nor above 100 stays so, and is within
    0..100 unless it is NaN, which the setter stores; the history stays
    the same list object and stays in the store, and no list object handed
    out earlier disappears from the store. *)
Theorem calls_keep_calculator_in_order (cs : list method_call) (w : world) :
  reserve_accepted (self w) → history_allocated w →
  reserve_accepted (self (run_calls cs w)) ∧
  (is_NaN (_reserve_percent (self (run_calls cs w))) = false →
   reserve_in_range (self (run_calls cs w))) ∧
  history_allocated (run_calls cs w) ∧
  _calculations_history (self (run_calls cs w))
  = _calculations_history (self w) ∧
  dom (heap w) ⊆ dom (heap (run_calls cs w)).
Proof.
  intros Hr Hw.
  destruct (run_calls_keeps cs w) as (Hrange & Hh & Hd).
  split; [by apply Hrange|].
  split; [by apply reserve_accepted_in_range, Hrange|].
  split; [|split; [exact Hh|exact Hd]].
  unfold history_allocated in *. rewrite Hh. by apply Hd.
Qed.

(** The theorem at a new calculator after a rejected and an accepted
    setting, a calculation, a comparison and a clearing. *)
Lemma calls_keep_calculator_in_order_witness :
  let cs := [Call_reserve_percent_set (Int 150);
             Call_reserve_percent_set (Int 20);
             Call_calculate (PyMaterial (Material_init "paint" (Int 5) (Int 1)))
                            (Int 3);
             Call_compare_materials [PyNone] (Int 3); Call_get_history;
             Call_clear_history] in
  reserve_in_range (self (run_calls cs (init reserve_percent_default ∅))) ∧
  history_allocated (run_calls cs (init reserve_percent_default ∅)).
Proof.
  intros cs.
  destruct (calls_keep_calculator_in_order cs (init reserve_percent_default ∅))
    as (_ & H1 & H2 & _).
  - split; reflexivity.
  - apply init_history_allocated.
  - split; [|exact H2]. apply H1. vm_compute. reflexivity.
Defined.

(** X6. When a call of [calculate] inside [compare_materials] raises
    after earlier calls returned, the comparison raises that exception and
    returns no list, the receiver is unchanged, and the results of the
    earlier calls stay in the history. *)
Theorem compare_materials_failure_keeps_earlier_results
    a ms1 m ms2 w rs w1 e w2 :
  history_allocated w → calculate_each a ms1 w rs w1 →
  calculate m a w1 = (Raise e, w2) →
  ∃ w', compare_materials (ms1 ++ m :: ms2) a w = (Raise e, w') ∧
        self w' = self w ∧ history w' = history w ++ rs ∧
        length rs = length ms1.
Proof.
  intros Hw Heach Hfail.
  destruct (compare_materials_raises a ms1 m ms2 w rs w1 e w2 Hw Heach Hfail)
    as (w' & Hcmp & Hself & Hhist).
  exists w'. repeat split; try assumption.
  by destruct (calculate_each_effect _ _ _ _ _ Heach) as (_ & Hlen & _).
Qed.

(** The theorem at a material followed by [None]: [ValueError], and one
    result in the history. *)
Lemma compare_materials_failure_keeps_earlier_results_witness :
  ∃ w',
    compare_materials
      [PyMaterial (Material_init "paint" (Int 5) (Int 1)); PyNone] (Int 3)
      (init reserve_percent_default ∅)
    = (Raise (ValueError Msg_material_instance), w') ∧
    length (history w') = 1%nat.
Proof.
  destruct (calculate (PyMaterial (Material_init "paint" (Int 5) (Int 1)))
              (Int 3) (init reserve_percent_default ∅))
    as [[res|e|] w1] eqn:Hcall; [|vm_compute in Hcall; discriminate Hcall..].
  destruct (compare_materials_failure_keeps_earlier_results (Int 3)
              [PyMaterial (Material_init "paint" (Int 5) (Int 1))] PyNone []
              (init reserve_percent_default ∅) [res] w1
              (ValueError Msg_material_instance) w1)
    as (w' & Hcmp & _ & Hhist & _).
  - apply init_history_allocated.
  - econstructor; [exact Hcall|constructor].
  - apply calculate_not_a_material; reflexivity.
  - exists w'. split; [exact Hcmp|]. rewrite Hhist. reflexivity.
Defined.

(** X7. The first result of a comparison is a cheapest one: when every
    call of [calculate] returns and no cost is NaN, the returned list is
    not empty and its first element is one of the results and costs no
    more than any of them. *)
Theorem compare_materials_cheapest_first ms a w rs w1 :
  ms ≠ [] → history_allocated w → calculate_each a ms w rs w1 →
  no_NaN_key total_cost rs →
  ∃ l w' best rest,
    compare_materials ms a w = (Return l, w') ∧
    list_contents (heap w') l = best :: rest ∧
    In best rs ∧
    ∀ r, In r rs → num_le (total_cost best) (total_cost r).
Proof.
  intros Hms Hw Heach Hnan.
  pose proof (compare_materials_returns a ms w rs w1 Hms Hw Heach Hnan) as Hcmp.
  cbv zeta in Hcmp.
  pose proof (sort_by_key_perm total_cost rs) as Hperm.
  pose proof (sort_by_key_sorted total_cost rs Hnan) as Hsorted.
  destruct (sort_by_key total_cost rs) as [|best rest] eqn:Hsort.
  { apply Permutation_length in Hperm.
    destruct (calculate_each_effect _ _ _ _ _ Heach) as (_ & Hlen & _).
    destruct ms; [done|]. by rewrite Hlen in Hperm. }
  assert (In best rs) as Hbest.
  { apply Permutation_in with (best :: rest); [by symmetry|by left]. }
  eexists _, _, best, rest. split; [exact Hcmp|].
  cbn [heap]. split; [apply list_contents_insert_eq|].
  split; [exact Hbest|].
  intros r Hr. apply (Permutation_in _ Hperm) in Hr.
  destruct Hr as [->|Hr].
  - apply num_eqb_leb, num_eqb_refl.
    unfold no_NaN_key in Hnan. rewrite List.Forall_forall in Hnan.
    by apply Hnan.
  - apply StronglySorted_inv in Hsorted as [_ Hall].
    rewrite List.Forall_forall in Hall. by apply Hall.
Qed.

(** The theorem at a roll costing 6000 and a paint costing 130. *)
Lemma compare_materials_cheapest_first_witness :
  ∃ l w' best rest,
    compare_materials
      [PyMaterial (Material_init "roll" (Int 1200) (dec 53265 4));
       PyMaterial (Material_init "paint" (Int 5) (Int 1))] (dec 2317 2)
      (init reserve_percent_default ∅)
    = (Return l, w') ∧
    list_contents (heap w') l = best :: rest ∧
    name (material best) = "paint".
Proof.
  assert (∃ rs w1,
            calculate_each (dec 2317 2)
              [PyMaterial (Material_init "roll" (Int 1200) (dec 53265 4));
               PyMaterial (Material_init "paint" (Int 5) (Int 1))]
              (init reserve_percent_default ∅) rs w1 ∧
            no_NaN_key total_cost rs) as (rs & w1 & Heach & Hnan).
  { eexists _, _. split.
    - econstructor; [vm_compute; reflexivity|].
      econstructor; [vm_compute; reflexivity|]. constructor.
    - repeat constructor. }
  destruct (compare_materials_cheapest_first
              [PyMaterial (Material_init "roll" (Int 1200) (dec 53265 4));
               PyMaterial (Material_init "paint" (Int 5) (Int 1))]
              (dec 2317 2) (init reserve_percent_default ∅) rs w1)
    as (l & w' & best & rest & Hcmp & Hlist & _ & _);
    [discriminate|apply init_history_allocated|exact Heach|exact Hnan|].
  exists l, w', best, rest. split; [exact Hcmp|]. split; [exact Hlist|].
  vm_compute in Hcmp. injection Hcmp as Hl Hw'. subst l w'.
  vm_compute in Hlist. injection Hlist as Hbest _. by rewrite <- Hbest.
Defined.

(** X8. [clear_history] empties the history and nothing else: the
    receiver and every other list object are as before, a second clearing
    changes nothing more, and the history after the next calculation that
    returns holds that one result. *)
Theorem clear_history_starts_over (w : world) :
  ∃ w1,
    clear_history w = (Return tt, w1) ∧
    history w1 = [] ∧
    self w1 = self w ∧
    (∀ l, l ≠ _calculations_history (self w) → heap w1 !! l = heap w !! l) ∧
    clear_history w1 = (Return tt, w1) ∧
    ∀ obj a res w2,
      calculate obj a w1 = (Return res, w2) → history w2 = [res].
Proof.
  eexists. split; [apply clear_history_eq|].
  assert (history (mkWorld (self w)
                     (list_clear (_calculations_history (self w)) (heap w)))
          = []) as Hempty.
  { unfold history, list_clear. cbn [heap self].
    apply list_contents_update_eq. }
  split; [exact Hempty|]. split; [reflexivity|]. split; [|split].
  - intros l Hl. cbn [heap]. unfold list_clear, list_update.
    by rewrite lookup_insert_ne.
  - rewrite clear_history_eq. cbn [self heap]. f_equal. f_equal.
    unfold list_clear, list_update. apply insert_insert_eq.
  - intros obj a res w2 Hcall.
    apply calculate_Return_inv in Hcall as (m & _ & _ & _ & _ & _ & _ & ->).
    unfold history in *. cbn [self heap] in *. unfold list_append.
    rewrite list_contents_update_eq. by rewrite Hempty.
Qed.

End CalculatorMore.

(** ** RoomCalculator: areas *)

Lemma num_lt_0_Float g :
  num_lt (Int 0) (Float g) ↔ has_sign false g ∧ Float.is_zero g = false.
Proof.
  unfold num_lt, num_ltb, num_compare.
  destruct g as [s|s| |s m e]; cbn [num_value compare_values];
    change (inject_Z 0) with 0%Q.
  - simpl. split; [done|]. by intros [_ ?].
  - destruct s; simpl; split; try done. by intros [? _].
  - simpl. split; [done|]. by intros [? _].
  - destruct s.
    + pose proof (proj1 (Qgt_alt _ _) (to_Q_finite_neg m e)) as H.
      rewrite H. simpl. split; [done|]. by intros [? _].
    + pose proof (proj1 (Qlt_alt _ _) (to_Q_finite_pos m e)) as H.
      rewrite H. simpl. split; auto.
Qed.

(** The product of two positive floats is a float that is not negative
    (and not NaN); it can be [0.0]. *)
Lemma mul_positive_floats f g :
  num_lt (Int 0) (Float f) → num_lt (Int 0) (Float g) →
  num_le (Int 0) (Float (Float.mul f g)).
Proof.
  intros [Hf Hfz]%num_lt_0_Float [Hg Hgz]%num_lt_0_Float.
  apply num_le_0_Float. right.
  apply (mul_sign false false); [done|done|by rewrite Hfz|by rewrite Hgz, andb_false_r].
Qed.

Lemma floor_area_raises (l w : number) :
  num_le l (Int 0) ∨ num_le w (Int 0) →
  RoomCalculator.calculate_floor_area l w
  = Raise (ValueError Msg_length_width_positive).
Proof.
  unfold num_le, RoomCalculator.calculate_floor_area.
  intros [-> | ->]; [done|]. by rewrite orb_true_r.
Qed.

Lemma floor_area_passes (l w : number) :
  num_leb l (Int 0) = false → num_leb w (Int 0) = false →
  RoomCalculator.calculate_floor_area l w = num_mul l w.
Proof. unfold RoomCalculator.calculate_floor_area. by intros -> ->. Qed.

(** X9. [calculate_floor_area] raises [ValueError] when the length or the
    width is [<= 0]; otherwise it is their product with Python's [*],
    which raises [OverflowError] on an int beyond the floats and nothing
    else.  The product of two positive floats is returned and is not
    negative, but it is not always positive: two floats near [1e-200] give
    [0.0]. *)
Theorem calculate_floor_area_contract (l w : number) :
  (num_le l (Int 0) ∨ num_le w (Int 0) →
   RoomCalculator.calculate_floor_area l w
   = Raise (ValueError Msg_length_width_positive)) ∧
  (¬ num_le l (Int 0) → ¬ num_le w (Int 0) →
   RoomCalculator.calculate_floor_area l w = num_mul l w ∧
   ((∃ v, num_mul l w = Return v) ∨ num_mul l w = Raise OverflowError)) ∧
  (∀ fl fw, l = Float fl → w = Float fw → num_lt (Int 0) l → num_lt (Int 0) w →
     RoomCalculator.calculate_floor_area l w = Return (Float (Float.mul fl fw)) ∧
     num_le (Int 0) (Float (Float.mul fl fw))) ∧
  (let small := Float (S754_finite false 1 (-600)) in
   num_lt (Int 0) small ∧
   RoomCalculator.calculate_floor_area small small
   = Return (Float (S754_zero false))).
Proof.
  split; [apply floor_area_raises|]. split; [|split].
  - unfold num_le. intros Hl%not_true_is_false Hw%not_true_is_false.
    split; [by apply floor_area_passes|]. apply arith_cases.
  - intros fl fw -> -> Hl Hw.
    rewrite floor_area_passes by by apply num_ltb_not_leb.
    split; [reflexivity|]. by apply mul_positive_floats.
  - split; [reflexivity|]. vm_compute. reflexivity.
Qed.

(** The theorem at a floor of 4 by 3 and at a floor of width 0. *)
Lemma calculate_floor_area_contract_witness :
  RoomCalculator.calculate_floor_area (Int 4) (Int 3) = Return (Int 12) ∧
  RoomCalculator.calculate_floor_area (Int 4) (Int 0)
  = Raise (ValueError Msg_length_width_positive).
Proof.
  split.
  - destruct (calculate_floor_area_contract (Int 4) (Int 3)) as (_ & H & _).
    destruct H as [-> _]; [vm_compute; discriminate..|]. reflexivity.
  - apply (calculate_floor_area_contract (Int 4) (Int 0)). right. reflexivity.
Defined.

(** X10. [calculate_wall_area] returns only when none of its tests holds:
    the perimeter and the height are not [<= 0], the openings are not
    [< 0], and the value returned is that of
    [perimeter * height - door_area - window_area] with Python's
    operators and is not [<= 0]; so it is positive, or NaN. *)
Theorem calculate_wall_area_returns_only (p h d wn v : number) :
  RoomCalculator.calculate_wall_area p h d wn = Return v →
  ¬ num_le p (Int 0) ∧ ¬ num_le h (Int 0) ∧
  ¬ num_lt d (Int 0) ∧ ¬ num_lt wn (Int 0) ∧
  RoomCalculator.wall_expression p h d wn = Return v ∧
  ¬ num_le v (Int 0) ∧
  (num_lt (Int 0) v ∨ is_NaN v = true).
Proof.
  unfold num_le, num_lt, RoomCalculator.calculate_wall_area.
  destruct (num_leb p (Int 0)); [done|].
  destruct (num_leb h (Int 0)); [done|].
  destruct (num_ltb d (Int 0)); [done|].
  destruct (num_ltb wn (Int 0)); [done|]. cbn [orb].
  destruct (RoomCalculator.wall_expression p h d wn) as [v'| |];
    cbn [mbind outcome_bind]; [|done..].
  destruct (num_leb v' (Int 0)) eqn:E; [done|]. intros [= ->].
  repeat split; try done; try (by rewrite E).
  destruct (is_NaN v) eqn:Hn; [by right|left].
  destruct (num_ltb (Int 0) v) eqn:Hlt; [done|].
  by rewrite (num_leb_total v (Int 0) Hn eq_refl Hlt) in E.
Qed.

(** The theorem at a wall of perimeter 10 and height 2.5 with openings of
    5 and 5. *)
Lemma calculate_wall_area_returns_only_witness :
  RoomCalculator.wall_expression (Int 10) (dec 25 1) (Int 5) (Int 5)
  = Return (Float (Float.of_Z 15)) ∧
  ¬ num_le (Float (Float.of_Z 15)) (Int 0).
Proof.
  destruct (calculate_wall_area_returns_only (Int 10) (dec 25 1) (Int 5) (Int 5)
              (Float (Float.of_Z 15)))
    as (_ & _ & _ & _ & Hv & Hpos & _); [vm_compute; reflexivity|].
  by split.
Defined.

(** A wall area is also returned when it is NaN: with a NaN perimeter no
    test holds. *)
Lemma calculate_wall_area_NaN :
  RoomCalculator.calculate_wall_area (Float Float.nan) (dec 25 1) (Int 0) (Int 0)
  = Return (Float Float.nan).
Proof. vm_compute. reflexivity. Qed.

(** ** RoomCalculator: materials for a room *)

Section RoomMaterials.
Import MaterialCalculator.
Variables (material : pyobject) (l w : number) (height : option number).
Variables (d wn : number) (rc : RoomCalculator) (σ : store).

Lemma room_floor :
  RoomCalculator.calculate_materials_for_room material l w height d wn
    "floor" rc σ
  = match RoomCalculator.calculate_floor_area l w with
    | Return area => RoomCalculator.delegate (calculate material area) rc σ
    | Raise e => (Raise e, (rc, σ))
    | Unmodelled => (Unmodelled, (rc, σ))
    end.
Proof. reflexivity. Qed.

Lemma room_wall_no_height :
  RoomCalculator.calculate_materials_for_room material l w None d wn
    "wall" rc σ
  = (Raise (ValueError Msg_height_required), (rc, σ)).
Proof. reflexivity. Qed.

Lemma room_wall (h : number) :
  RoomCalculator.calculate_materials_for_room material l w (Some h) d wn
    "wall" rc σ
  = match (sides ← num_add l w;
           perimeter ← num_mul (Int 2) sides;
           RoomCalculator.calculate_wall_area perimeter h d wn) with
    | Return area => RoomCalculator.delegate (calculate material area) rc σ
    | Raise e => (Raise e, (rc, σ))
    | Unmodelled => (Unmodelled, (rc, σ))
    end.
Proof. reflexivity. Qed.

Lemma room_unknown_surface (surface_type : string) :
  surface_type ≠ "floor" → surface_type ≠ "wall" →
  RoomCalculator.calculate_materials_for_room material l w height d wn
    surface_type rc σ
  = (Raise (ValueError Msg_surface_type), (rc, σ)).
Proof.
  intros Hf Hw.
  unfold RoomCalculator.calculate_materials_for_room, RoomCalculator.room_area.
  apply String.eqb_neq in Hf, Hw. by rewrite Hf, Hw.
Qed.

End RoomMaterials.

Lemma delegate_calculate_Return obj a rc σ res s :
  RoomCalculator.delegate (MaterialCalculator.calculate obj a) rc σ
  = (Return res, s) →
  MaterialCalculator.calculate obj a (mkWorld (_material_calculator rc) σ)
  = (Return res, mkWorld (_material_calculator (fst s)) (snd s)).
Proof.
  unfold RoomCalculator.delegate.
  destruct (MaterialCalculator.calculate obj a
              (mkWorld (_material_calculator rc) σ)) as [[r|e|] [c σ']];
    cbn; intros H; [|done..].
  by injection H as <- <-.
Qed.

Lemma delegate_calculate_not_Return obj a rc σ o s :
  RoomCalculator.delegate (MaterialCalculator.calculate obj a) rc σ = (o, s) →
  (∀ res, o ≠ Return res) → s = (rc, σ).
Proof.
  unfold RoomCalculator.delegate. intros H Hno.
  destruct (MaterialCalculator.calculate obj a
              (mkWorld (_material_calculator rc) σ)) as [o' w'] eqn:Hcall.
  injection H as -> <-.
  destruct (calculate_not_Return _ _ _ _ _ Hcall Hno) as [-> _].
  by destruct rc.
Qed.

Lemma room_calculate_not_Return_state
    (obj : pyobject) (l w : number) (height : option number) (d wn : number)
    (surface_type : string) (rc : RoomCalculator) (σ : store) o s :
  RoomCalculator.calculate_materials_for_room obj l w height d wn
    surface_type rc σ = (o, s) →
  (∀ res, o ≠ Return res) → s = (rc, σ).
Proof.
  unfold RoomCalculator.calculate_materials_for_room.
  destruct (RoomCalculator.room_area l w height d wn surface_type)
    as [area|e|]; [apply delegate_calculate_not_Return|by intros [= <- <-]..].
Qed.

(** A room calculation that returns is a material calculation on the area
    of the room, which is not [<= 0]. *)
Lemma room_calculate_Return_inv
    (obj : pyobject) (l w : number) (height : option number) (d wn : number)
    (surface_type : string) (rc : RoomCalculator) (σ : store) res s :
  RoomCalculator.calculate_materials_for_room obj l w height d wn
    surface_type rc σ = (Return res, s) →
  ∃ a, RoomCalculator.room_area l w height d wn surface_type = Return a ∧
       MaterialCalculator.calculate obj a (mkWorld (_material_calculator rc) σ)
       = (Return res, mkWorld (_material_calculator (fst s)) (snd s)).
Proof.
  unfold RoomCalculator.calculate_materials_for_room.
  destruct (RoomCalculator.room_area l w height d wn surface_type)
    as [area|e|]; [|done..].
  intros H%delegate_calculate_Return. eauto.
Qed.

(** What a returning room calculation leaves behind. *)
Lemma room_calculate_Return_effect
    (obj : pyobject) (l w : number) (height : option number) (d wn : number)
    (surface_type : string) (rc : RoomCalculator) (σ : store) res s :
  RoomCalculator.calculate_materials_for_room obj l w height d wn
    surface_type rc σ = (Return res, s) →
  let h := _calculations_history (_material_calculator rc) in
  ∃ a, RoomCalculator.room_area l w height d wn surface_type = Return a ∧
       area res = a ∧ ¬ num_le a (Int 0) ∧
       reserve_percent res = _reserve_percent (_material_calculator rc) ∧
       fst s = rc ∧
       list_contents (snd s) h = list_contents σ h ++ [res].
Proof.
  intros (a & Ha & Hcall)%room_calculate_Return_inv h.
  apply calculate_Return_inv in Hcall
    as (m & _ & Hle & _ & _ & Harea & Hres & Hw).
  cbn [self heap] in *. injection Hw as Hc Hσ.
  exists a. split; [exact Ha|]. split; [exact Harea|].
  split; [unfold num_le; by rewrite Hle|]. split; [exact Hres|].
  split.
  - destruct s as [[c] σ']. destruct rc as [c0]. cbn in *. by rewrite Hc.
  - rewrite Hσ. unfold list_append. apply list_contents_update_eq.
Qed.

(** X11. For the surface type ['floor'] the room calculation is the
    material calculation on [length * width]: it raises [ValueError] and
    records nothing when the length or the width is [<= 0], whatever the
    material argument is, and otherwise does exactly what [calculate] does
    on the product; the height and the openings play no part.  When it
    returns, the result is for the area [length * width], made with the
    reserve of the room calculator, and it is appended to the history. *)
Theorem room_floor_materials
    (obj : pyobject) (l w : number) (height : option number) (d wn : number)
    (rc : RoomCalculator) (σ : store) :
  let call :=
    RoomCalculator.calculate_materials_for_room obj l w height d wn
      "floor" rc σ in
  let h := _calculations_history (_material_calculator rc) in
  (num_le l (Int 0) ∨ num_le w (Int 0) →
   call = (Raise (ValueError Msg_length_width_positive), (rc, σ))) ∧
  (¬ num_le l (Int 0) → ¬ num_le w (Int 0) →
   ∀ a, num_mul l w = Return a →
   call = RoomCalculator.delegate (MaterialCalculator.calculate obj a) rc σ) ∧
  (∀ res s, call = (Return res, s) →
     num_mul l w = Return (area res) ∧
     reserve_percent res = _reserve_percent (_material_calculator rc) ∧
     fst s = rc ∧
     list_contents (snd s) h = list_contents σ h ++ [res]).
Proof.
  cbv zeta. split; [|split].
  - intros H. rewrite room_floor. by rewrite (floor_area_raises l w H).
  - unfold num_le. intros Hl%not_true_is_false Hw%not_true_is_false a Ha.
    rewrite room_floor. by rewrite floor_area_passes, Ha.
  - intros res s Hcall.
    destruct (room_calculate_Return_effect _ _ _ _ _ _ _ _ _ _ _ Hcall)
      as (a & Ha & Harea & _ & Hres & Hrc & Hhist).
    split; [|done].
    change (RoomCalculator.room_area l w height d wn "floor")
      with (RoomCalculator.calculate_floor_area l w) in Ha.
    unfold RoomCalculator.calculate_floor_area in Ha.
    destruct (_ || _); [done|]. by rewrite Harea.
Qed.

(** The theorem at a floor of 4 by 3 and a paint covering 1. *)
Lemma room_floor_materials_witness :
  ∃ res s,
    RoomCalculator.calculate_materials_for_room
      (PyMaterial (Material_init "paint" (Int 5) (Int 1))) (Int 4) (Int 3)
      None (Int 0) (Int 0) "floor"
      (fst (RoomCalculator.init ∅)) (snd (RoomCalculator.init ∅))
    = (Return res, s) ∧
    num_mul (Int 4) (Int 3) = Return (area res) ∧
    fst s = fst (RoomCalculator.init ∅).
Proof.
  destruct (RoomCalculator.calculate_materials_for_room
      (PyMaterial (Material_init "paint" (Int 5) (Int 1))) (Int 4) (Int 3)
      None (Int 0) (Int 0) "floor"
      (fst (RoomCalculator.init ∅)) (snd (RoomCalculator.init ∅)))
    as [[res|e|] s] eqn:Hcall; [|vm_compute in Hcall; discriminate Hcall..].
  destruct (room_floor_materials
              (PyMaterial (Material_init "paint" (Int 5) (Int 1)))
              (Int 4) (Int 3) None (Int 0) (Int 0)
              (fst (RoomCalculator.init ∅)) (snd (RoomCalculator.init ∅)))
    as (_ & _ & H).
  destruct (H res s Hcall) as (Harea & _ & Hrc & _).
  by exists res, s.
Defined.

(** X12. For the surface type ['wall'] a missing height raises
    [ValueError]; with a height the perimeter is [2 * (length + width)]
    with Python's operators, and the call does what [calculate_wall_area]
    does on that perimeter: it raises [ValueError] when the perimeter or
    the height is [<= 0] (the length and the width are not looked at one
    by one), and when a wall area is returned it does exactly what
    [calculate] does on that area.  A call that raises here records
    nothing. *)
Theorem room_wall_materials
    (obj : pyobject) (l w : number) (d wn : number)
    (rc : RoomCalculator) (σ : store) :
  RoomCalculator.calculate_materials_for_room obj l w None d wn "wall" rc σ
  = (Raise (ValueError Msg_height_required), (rc, σ)) ∧
  (∀ h sides perimeter,
     num_add l w = Return sides → num_mul (Int 2) sides = Return perimeter →
     (num_le perimeter (Int 0) ∨ num_le h (Int 0) →
      RoomCalculator.calculate_materials_for_room obj l w (Some h) d wn
        "wall" rc σ
      = (Raise (ValueError Msg_perimeter_height_positive), (rc, σ))) ∧
     (∀ e, RoomCalculator.calculate_wall_area perimeter h d wn = Raise e →
        RoomCalculator.calculate_materials_for_room obj l w (Some h) d wn
          "wall" rc σ = (Raise e, (rc, σ))) ∧
     (∀ a, RoomCalculator.calculate_wall_area perimeter h d wn = Return a →
        RoomCalculator.calculate_materials_for_room obj l w (Some h) d wn
          "wall" rc σ
        = RoomCalculator.delegate (MaterialCalculator.calculate obj a) rc σ)).
Proof.
  split; [reflexivity|].
  intros h sides perimeter Hs Hp. rewrite room_wall, Hs.
  cbn [mbind outcome_bind]. rewrite Hp. cbn [mbind outcome_bind].
  split; [|split].
  - intros H. by rewrite wall_area_bad_dimensions.
  - by intros e ->.
  - by intros a ->.
Qed.

(** The theorem at a room of 3 by 2 with walls 2.5 high and openings of 2
    and 3: the area of the result is [2*(3+2)*2.5 - 2 - 3 = 20.0]. *)
Lemma room_wall_materials_witness :
  ∃ res s,
    RoomCalculator.calculate_materials_for_room
      (PyMaterial (Material_init "paint" (Int 5) (Int 1))) (Int 3) (Int 2)
      (Some (dec 25 1)) (Int 2) (Int 3) "wall"
      (fst (RoomCalculator.init ∅)) (snd (RoomCalculator.init ∅))
    = (Return res, s) ∧
    area res = Float (Float.of_Z 20).
Proof.
  destruct (room_wall_materials
              (PyMaterial (Material_init "paint" (Int 5) (Int 1)))
              (Int 3) (Int 2) (Int 2) (Int 3)
              (fst (RoomCalculator.init ∅)) (snd (RoomCalculator.init ∅)))
    as (_ & H).
  destruct (H (dec 25 1) (Int 5) (Int 10) eq_refl eq_refl) as (_ & _ & Hret).
  rewrite (Hret (Float (Float.of_Z 20))) by (vm_compute; reflexivity).
  eexists _, _. split; [vm_compute; reflexivity|]. reflexivity.
Defined.

(** X13. A room calculation that raises, for whatever reason (an unknown
    surface type, a missing height, a bad dimension, a bad material, a
    zero coverage), leaves the room calculator and the store as they were:
    only calculations that return are recorded.  A surface type other than
    ['floor'] and ['wall'] always raises [ValueError]. *)
Theorem room_raise_changes_nothing
    (obj : pyobject) (l w : number) (height : option number) (d wn : number)
    (surface_type : string) (rc : RoomCalculator) (σ : store) :
  (∀ e s,
     RoomCalculator.calculate_materials_for_room obj l w height d wn
       surface_type rc σ = (Raise e, s) → s = (rc, σ)) ∧
  (surface_type ≠ "floor" → surface_type ≠ "wall" →
   RoomCalculator.calculate_materials_for_room obj l w height d wn
     surface_type rc σ
   = (Raise (ValueError Msg_surface_type), (rc, σ))).
Proof.
  split; [|apply room_unknown_surface].
  intros e s H. by apply room_calculate_not_Return_state in H.
Qed.

(** The theorem at the surface type ['ceiling'] and at a floor with a
    material that is [None]. *)
Lemma room_raise_changes_nothing_witness :
  RoomCalculator.calculate_materials_for_room
    (PyMaterial (Material_init "paint" (Int 5) (Int 1))) (Int 4) (Int 3)
    None (Int 0) (Int 0) "ceiling"
    (fst (RoomCalculator.init ∅)) (snd (RoomCalculator.init ∅))
  = (Raise (ValueError Msg_surface_type), RoomCalculator.init ∅) ∧
  snd (RoomCalculator.calculate_materials_for_room PyNone (Int 4) (Int 3)
         None (Int 0) (Int 0) "floor"
         (fst (RoomCalculator.init ∅)) (snd (RoomCalculator.init ∅)))
  = RoomCalculator.init ∅.
Proof.
  split.
  - apply (room_raise_changes_nothing
             (PyMaterial (Material_init "paint" (Int 5) (Int 1)))
             (Int 4) (Int 3) None (Int 0) (Int 0) "ceiling"
             (fst (RoomCalculator.init ∅)) (snd (RoomCalculator.init ∅)));
      discriminate.
  - destruct (RoomCalculator.calculate_materials_for_room PyNone (Int 4) (Int 3)
                None (Int 0) (Int 0) "floor"
                (fst (RoomCalculator.init ∅)) (snd (RoomCalculator.init ∅)))
      as [[res|e|] s] eqn:Hcall; [vm_compute in Hcall; discriminate Hcall| |
                                  vm_compute in Hcall; discriminate Hcall].
    apply (room_raise_changes_nothing PyNone (Int 4) (Int 3) None (Int 0)
             (Int 0) "floor"
             (fst (RoomCalculator.init ∅)) (snd (RoomCalculator.init ∅)))
      in Hcall.
    exact Hcall.
Defined.

(** ** RoomCalculator: the reserve *)

Lemma room_call_keeps_reserve (c : room_call) (s : RoomCalculator * store) :
  reserve_accepted (_material_calculator (fst s)) →
  reserve_accepted (_material_calculator (fst (run_room_call c s))).
Proof.
  destruct s as [rc σ]. cbn [fst snd]. intros Hr.
  destruct c as [value|obj l w h d wn t]; cbn [run_room_call fst snd].
  - unfold RoomCalculator.reserve_percent_set, RoomCalculator.delegate.
    destruct (num_ltb value (Int 0)) eqn:H0;
      [rewrite reserve_percent_set_rejects by (by left); exact Hr|].
    destruct (num_ltb (Int 100) value) eqn:H100;
      [rewrite reserve_percent_set_rejects by (by right); exact Hr|].
    rewrite reserve_percent_set_stores by assumption.
    cbn. by split.
  - destruct (RoomCalculator.calculate_materials_for_room obj l w h d wn t rc σ)
      as [o s'] eqn:Hcall.
    destruct o as [res|e|].
    + apply room_calculate_Return_effect in Hcall
        as (a & _ & _ & _ & _ & Hrc & _).
      cbn [snd]. by rewrite Hrc.
    + apply room_calculate_not_Return_state in Hcall; [|done]. by subst s'.
    + apply room_calculate_not_Return_state in Hcall; [|done]. by subst s'.
Qed.

Lemma room_calls_keep_reserve (cs : list room_call) (s : RoomCalculator * store) :
  reserve_accepted (_material_calculator (fst s)) →
  reserve_accepted (_material_calculator (fst (run_room_calls cs s))).
Proof.
  revert s. induction cs as [|c cs IH]; intros s Hs; [exact Hs|].
  cbn. apply IH. by apply room_call_keeps_reserve.
Qed.

(** X14. A room calculator is built with the reserve 10 and changes it
    through the setter only, whose test it passes on to: after any
    sequence of calls the reserve is neither below 0 nor above 100, and
    it is within 0..100 unless a NaN was set.  Every result it returns
    carries that reserve and an area that is not [<= 0]. *)
Theorem room_reserve_always_in_range (cs : list room_call) (σ : store) :
  let s := run_room_calls cs (RoomCalculator.init σ) in
  reserve_accepted (_material_calculator (fst s)) ∧
  (is_NaN (_reserve_percent (_material_calculator (fst s))) = false →
   reserve_in_range (_material_calculator (fst s))) ∧
  ∀ obj l w h d wn t res s',
    RoomCalculator.calculate_materials_for_room obj l w h d wn t
      (fst s) (snd s) = (Return res, s') →
    ¬ num_le (area res) (Int 0) ∧
    reserve_percent res = _reserve_percent (_material_calculator (fst s)) ∧
    reserve_accepted (_material_calculator (fst s')).
Proof.
  intros s.
  assert (reserve_accepted (_material_calculator (fst s))) as Hr.
  { apply room_calls_keep_reserve. split; reflexivity. }
  split; [exact Hr|]. split; [by apply reserve_accepted_in_range|].
  intros obj l w h d wn t res s' Hcall.
  apply room_calculate_Return_effect in Hcall
    as (a & _ & Harea & Ha & Hres & Hrc & _).
  split; [by rewrite Harea|]. split; [exact Hres|]. by rewrite Hrc.
Qed.

(** The theorem after a rejected setting of 150 and an accepted setting of
    20: a floor of 4 by 3 takes 15 units of a paint covering 1, at the
    reserve 20. *)
Lemma room_reserve_always_in_range_witness :
  let s := run_room_calls [Room_reserve_percent_set (Int 150);
                           Room_reserve_percent_set (Int 20)]
                          (RoomCalculator.init ∅) in
  ∃ res s',
    RoomCalculator.calculate_materials_for_room
      (PyMaterial (Material_init "paint" (Int 5) (Int 1))) (Int 4) (Int 3)
      None (Int 0) (Int 0) "floor" (fst s) (snd s) = (Return res, s') ∧
    units_needed res = 15 ∧ reserve_percent res = Int 20.
Proof.
  intros s.
  destruct (RoomCalculator.calculate_materials_for_room
              (PyMaterial (Material_init "paint" (Int 5) (Int 1)))
              (Int 4) (Int 3) None (Int 0) (Int 0) "floor"
              (fst s) (snd s)) as [[res|e|] s'] eqn:Hcall;
    [|vm_compute in Hcall; discriminate Hcall..].
  destruct (room_reserve_always_in_range
              [Room_reserve_percent_set (Int 150);
               Room_reserve_percent_set (Int 20)] ∅)
    as (_ & _ & H).
  destruct (H _ _ _ _ _ _ _ _ _ Hcall) as (_ & Hres & _).
  exists res, s'. split; [reflexivity|]. split; [|exact Hres].
  vm_compute in Hcall. injection Hcall as Hres' _. by rewrite <- Hres'.
Defined.

(** ** validate_positive_number *)

(** X15. [validate_positive_number] returns a float exactly when
    [float(value)] is a float that is not [<= 0], and then returns that
    float: a positive float or an infinity, and also NaN.  Of the failures,
    [TypeError] and [ValueError] reach the caller as the [ValueError] that
    says the value must be a number: the error raised for a number that is
    [<= 0] is caught by the function's own [except] clause and replaced, so
    a zero or a negative number is reported as not being a number.  The
    [OverflowError] of [float] on an int beyond the floats is not caught. *)
Theorem validate_positive_number_contract
    (parse_float : string → option float) (value : pyobject) (name : string) :
  (∀ num, validate_positive_number parse_float value name = Return num
          ↔ float_of parse_float value = Return num ∧
            ¬ num_le (Float num) (Int 0)) ∧
  (∀ e, validate_positive_number parse_float value name = Raise e →
        e = ValueError (Msg_must_be_number name) ∨
        (e = OverflowError ∧
         ∃ z, value = PyNumber (Int z) ∧ to_float (Int z) = Raise OverflowError)) ∧
  (∀ n f, to_float n = Return f → num_le (Float f) (Int 0) →
        validate_positive_number parse_float (PyNumber n) name
        = Raise (ValueError (Msg_must_be_number name))) ∧
  validate_positive_number parse_float PyNone name
  = Raise (ValueError (Msg_must_be_number name)) ∧
  validate_positive_number parse_float (PyNumber (Float Float.nan)) name
  = Return Float.nan ∧
  validate_positive_number parse_float (PyNumber (Int (10 ^ 400))) name
  = Raise OverflowError.
Proof.
  unfold validate_positive_number, num_le.
  split; [|split; [|split; [|split; [|split]]]].
  - intros num. destruct (float_of parse_float value) as [x|e|];
      cbn [mbind outcome_bind].
    + destruct (num_leb (Float x) (Int 0)) eqn:E; cbn.
      * split; [done|]. intros [[= ->] H]. by rewrite E in H.
      * split; [intros [= ->]; by rewrite E|]. by intros [? _].
    + split; [|by intros [? _]].
      by destruct (is_TypeError_or_ValueError e).
    + split; [done|]. by intros [? _].
  - intros e. destruct (float_of parse_float value) as [x|e'|] eqn:Hf;
      cbn [mbind outcome_bind].
    + destruct (num_leb (Float x) (Int 0)); cbn; [|done].
      intros [= <-]. by left.
    + destruct value as [m| |n|s]; cbn in Hf.
      * injection Hf as <-. cbn. intros [= <-]. by left.
      * injection Hf as <-. cbn. intros [= <-]. by left.
      * destruct n as [z|f]; [|done].
        destruct (to_float_cases (Int z)) as [[f Hz]|Hz]; rewrite Hz in Hf;
          [done|]. injection Hf as <-. cbn. intros [= <-]. right. eauto.
      * destruct (parse_float s); [done|].
        injection Hf as <-. cbn. intros [= <-]. by left.
    + done.
  - intros n f Hn Hf. cbn [float_of]. rewrite Hn. cbn [mbind outcome_bind].
    by rewrite Hf.
  - reflexivity.
  - reflexivity.
  - vm_compute. reflexivity.
Qed.

(** The theorem at the numbers 2.5 and 0. *)
Lemma validate_positive_number_contract_witness :
  validate_positive_number (λ _, None) (PyNumber (dec 25 1)) "area"
  = Return (Float.decimal 25 1) ∧
  validate_positive_number (λ _, None) (PyNumber (Int 0)) "area"
  = Raise (ValueError (Msg_must_be_number "area")).
Proof.
  destruct (validate_positive_number_contract (λ _, None)
              (PyNumber (dec 25 1)) "area") as (Hret & _).
  destruct (validate_positive_number_contract (λ _, None)
              (PyNumber (Int 0)) "area") as (_ & _ & Hneg & _).
  split.
  - apply Hret. split; [reflexivity|]. vm_compute. discriminate.
  - apply (Hneg (Int 0) (S754_zero false)); reflexivity.
Defined.

(** ** Exporters: file names and the count of exports *)

Section ExportFrame.
Import BaseExporter.
Context {D : Type} (extension : string).





(** The rest of the section is about a document builder that does not
    raise. *)
Context (build_document : string → list CalculationResult → D).





End ExportFrame.



(** ** ExcelExporter: the cells of the sheet *)

Section Sheet.
Import ExcelExporter.
Local Open Scope nat_scope.

Variable py_sum : list number → outcome number.






End Sheet.


(** ** ExcelExporter: the export that never saves *)


